(** * Framework data types and identifier resolution of gtscio/data

  A shallow embedding of
  - [FrameworkDataTypes.validateIPropertyList] and
    [FrameworkDataTypes.validateIProperty]
    (packages/data-framework/src/dataTypes/frameworkDataTypes.ts), and
  - the matcher of [IdentifierHandlerFactory] (same file, second part),
  together with the properties their specification states.

  JavaScript values are a tree type with object identities, the failures
  array is threaded as explicit state, and a thrown exception is a result
  of its own. *)

From Stdlib Require Import String Ascii List Bool Arith Lia DecimalString.
From Stdlib Require Import Floats.PrimFloat.
From stdpp Require Import base option list strings gmap.

#[local] Set Warnings "-register-all".

Local Open Scope string_scope.
Local Open Scope list_scope.

(* ===================================================================== *)
(** ** JavaScript values *)
(* ===================================================================== *)

Module JS.

(** Identity of an object or array (its address): two object values are
    the same value for [===] and [Array.prototype.includes] exactly when
    they are the same object. *)
Definition ref := positive.

Inductive value : Type :=
| VUndefined
| VNull
| VBool (b : bool)
| VNumber (n : float)
| VString (s : string)
| VArray (r : ref) (elems : list value)
| VObject (r : ref) (fields : list (string * value)).
Arguments VNumber n%_float.
Arguments VArray r%_positive elems%_list.
Arguments VObject r%_positive fields%_list.

(** What a call can throw. [TypeError] is the engine's error for a
    property read on [null] or [undefined]; [MalformedIdentifier] is the
    guard error of [Urn.guard (source, property, value)]; [OtherError] is
    whatever a registered validator may throw. *)
Inductive error : Type :=
| TypeError
| MalformedIdentifier (source property value : string)
| OtherError (name : string).

Inductive Res (A : Type) : Type :=
| Ok (a : A)
| Throw (e : error).
Arguments Ok {A} a.
Arguments Throw {A} e.

(** Own property named [name] of an object literal; the first binding of
    a name is the property (names are unique in an object). *)
Fixpoint field (fields : list (string * value)) (name : string) : value :=
  match fields with
  | [] => VUndefined
  | (k, v) :: rest => if String.eqb k name then v else field rest name
  end.

(** [v.name] for the names the code reads ([key], [type], [value]): a
    [TypeError] on [null] and [undefined], the own property on an object,
    [undefined] on every other value (no prototype defines these names). *)
Definition member (v : value) (name : string) : Res value :=
  match v with
  | VUndefined | VNull => Throw TypeError
  | VObject _ fields => Ok (field fields name)
  | _ => Ok VUndefined
  end.

(** The SameValueZero comparison of [Array.prototype.includes]: [NaN]
    equals [NaN], [+0] equals [-0], objects and arrays by identity. *)
Definition sameValueZero (x y : value) : bool :=
  match x, y with
  | VUndefined, VUndefined => true
  | VNull, VNull => true
  | VBool a, VBool b => Bool.eqb a b
  | VNumber a, VNumber b =>
      (PrimFloat.eqb a b || (PrimFloat.is_nan a && PrimFloat.is_nan b))%bool
  | VString a, VString b => String.eqb a b
  | VArray r _, VArray r' _ => Pos.eqb r r'
  | VObject r _, VObject r' _ => Pos.eqb r r'
  | _, _ => false
  end.

(** [arr.includes(x)] *)
Definition includes (arr : list value) (x : value) : bool :=
  existsb (sameValueZero x) arr.

(** [arr[i]]: [undefined] out of range. *)
Definition index (arr : list value) (i : nat) : value :=
  default VUndefined (arr !! i).

(** The elements of an array value. *)
Definition elements (v : value) : list value :=
  match v with VArray _ elems => elems | _ => [] end.

(** [parts.join(sep)] *)
Definition join (sep : string) (parts : list string) : string :=
  String.concat sep parts.

(** [`${i}`] for an array index. *)
Definition showIndex (i : nat) : string :=
  NilZero.string_of_uint (Nat.to_uint i).

End JS.
Import JS.

(* ===================================================================== *)
(** ** IdentifierHandlerFactory: the namespace matcher *)
(* ===================================================================== *)

Module IdentifierHandlerFactory.

Section Matcher.

(** The [Urn] class of the core library is not part of this package; the
    matcher uses it through [Urn.guard] (which throws unless the string
    parses as an identifier) and [Urn.fromValidString(uri).parts()] (the
    segments of a valid identifier). Both are parameters here. *)
Variable Urn_tryParseExact : string -> bool.
Variable Urn_parts : string -> list string.

(** [Urn.guard(source, property, value)] *)
Definition Urn_guard (source property uri : string) : Res unit :=
  if Urn_tryParseExact uri then Ok tt
  else Throw (MalformedIdentifier source property uri).

(** The loop [for (let i = urnParts.length - 1; i >= 0; i--)] with [n]
    iterations left, so that the index of the current iteration is
    [i = n - 1]:
<<
      const wholeNamespace = urnParts.slice(i).join(":");
      if (names.includes(wholeNamespace)) { return wholeNamespace; }
>>
    Falling out of the loop returns [undefined]. *)
Fixpoint matchLoop (names urnParts : list string) (n : nat) : option string :=
  match n with
  | 0 => None
  | S i =>
      let wholeNamespace := join ":" (drop i urnParts) in
      if bool_decide (wholeNamespace ∈ names) then Some wholeNamespace
      else matchLoop names urnParts i
  end.

(** The matcher passed to [Factory.createFactory]:
    [(names: string[], uri: string) => ...]. *)
Definition resolveNamespace (names : list string) (uri : string)
  : Res (option string) :=
  match Urn_guard "IdentifierHandlerFactory" "uri" uri with
  | Throw e => Throw e
  | Ok _ =>
      let urnParts := Urn_parts uri in
      Ok (matchLoop names urnParts (length urnParts))
  end.

End Matcher.

End IdentifierHandlerFactory.

(* ===================================================================== *)
(** ** The failures sink *)
(* ===================================================================== *)

Module Sink.

(** [IValidationFailure], with the two members every failure carries. *)
Record IValidationFailure : Type :=
  { property : string; reason : string }.

(** The [failures] array. A computation receives the array as it is and
    leaves it as it made it, next to its result or the error it threw. *)
Definition sink := list IValidationFailure.
Definition M (A : Type) : Type := sink -> Res A * sink.

Definition ret {A} (a : A) : M A := fun failures => (Ok a, failures).

Definition bind {A B} (m : M A) (k : A -> M B) : M B :=
  fun failures =>
    match m failures with
    | (Ok a, failures') => k a failures'
    | (Throw e, failures') => (Throw e, failures')
    end.

(** [failures.push(f)] *)
Definition push (f : IValidationFailure) : M unit :=
  fun failures => (Ok tt, failures ++ [f]).

(** An expression that may throw and does not touch the array. *)
Definition eval {A} (r : Res A) : M A := fun failures => (r, failures).

(** [if (cond) { m }] *)
Definition when (cond : bool) (m : M unit) : M unit :=
  if cond then m else ret tt.

(** [for (let i = 0; i < n; i++) { s = body(i, s) }]: the iterations
    [0], ..., [n - 1] in this order; an iteration that throws ends the
    loop. *)
Fixpoint forUpTo {St} (n : nat) (body : nat -> St -> M St) (s : St) : M St :=
  match n with
  | 0 => ret s
  | S i => bind (forUpTo i body s) (body i)
  end.

End Sink.
Import Sink.

Notation "'let*' x ':=' m 'in' k" := (bind m (fun x => k))
  (at level 10, x name, m at level 100, k at level 200, only parsing).
Notation "m ';;;' k" := (bind m (fun _ => k))
  (at level 100, k at level 200, right associativity, only parsing).

(* ===================================================================== *)
(** ** The core library's checks *)
(* ===================================================================== *)

Module Core.

(** Modelled from the spec: the [Is] predicates of the core library, which
    is not part of this package. Empty/absent is [undefined] or [null]; an
    object is a non-null value of type object that is not an array; a
    string value is a non-empty string. *)
Definition Is_empty (v : value) : bool :=
  match v with VUndefined | VNull => true | _ => false end.

Definition Is_notEmpty (v : value) : bool := negb (Is_empty v).

Definition Is_array (v : value) : bool :=
  match v with VArray _ _ => true | _ => false end.

Definition Is_object (v : value) : bool :=
  match v with VObject _ _ => true | _ => false end.

Definition Is_stringValue (v : value) : bool :=
  match v with VString s => negb (String.eqb s "") | _ => false end.

(** Modelled from the spec: a check of the core library's [Validation]
    class. Each one tests its rule, appends one failure naming the rule
    under [property] when the rule fails, and returns the outcome of the
    test. The reason codes are the library's; nothing below depends on
    their spelling. *)
Definition check (is_ : bool) (property rule : string) : M bool :=
  when (negb is_) (push {| property := property; reason := rule |}) ;;;
  ret is_.

Definition Validation_object (property : string) (v : value) : M bool :=
  check (Is_object v) property "validation.beObject".

Definition Validation_stringValue (property : string) (v : value) : M bool :=
  check (Is_stringValue v) property "validation.beNotEmptyString".

Definition Validation_notEmpty (property : string) (v : value) : M bool :=
  check (Is_notEmpty v) property "validation.beNotEmpty".

(** The failure a check pushes, if any. *)
Definition failureUnless (is_ : bool) (property rule : string) : sink :=
  if is_ then [] else [ {| property := property; reason := rule |} ].

(** Modelled from the spec: [nameof(value.member, parentName)] of the nameof
    package, the path of a member below its parent's path. *)
Definition nameof (member parentName : string) : string :=
  parentName +:+ "." +:+ member.

End Core.
Import Core.

(* ===================================================================== *)
(** ** FrameworkDataTypes *)
(* ===================================================================== *)

Module FrameworkDataTypes.

(** [validate: (propertyName, value, failures, container) => boolean] of a
    data type handler. *)
Definition Validator : Type :=
  string -> value -> sink -> value -> Res bool * sink.

(** [IDataTypeHandler], without its schema (the validators never read it). *)
Record IDataTypeHandler : Type :=
  { type : string;
    defaultValue : option value;
    validate : option Validator }.

(** An [IProperty]: the object [{ key, type, value }] at address [r]. *)
Definition IProperty (r : ref) (key type : string) (value : JS.value) : JS.value :=
  VObject r [("key", VString key); ("type", VString type); ("value", value)].
Arguments IProperty r%_positive key%_string type%_string value.

(** The state of [DataTypeHandlerFactory]: the handler under each name. *)
Abbreviation Registry := (gmap string IDataTypeHandler).

Definition TYPE_PROPERTY := "https://schema.gtsc.io/Property".
Definition TYPE_PROPERTY_LIST := "https://schema.gtsc.io/PropertyList".

(** [dataTypeHandler?.validate] *)
Definition optionalValidate (dataTypeHandler : option IDataTypeHandler)
  : option Validator :=
  dataTypeHandler ≫= validate.

Section Validators.

(** Whether a string parses as a URL ([Url.tryParseExact] of the core
    library): a parameter. *)
Variable Url_tryParseExact : string -> bool.

(** The handlers registered when the validators run. *)
Variable registry : Registry.

(** Modelled from the spec: the test of [Url.validate] of the core library,
    passed by a non-empty string that parses as a URL. *)
Definition validType (type : value) : bool :=
  match type with
  | VString s => Is_stringValue type && Url_tryParseExact s
  | _ => false
  end.

(** Modelled from the spec: [Url.validate] appends one failure unless the
    value passes that test. *)
Definition Url_validate (property : string) (v : value) : M bool :=
  check (validType v) property "validation.beUrl".

(** Modelled from the spec: [DataTypeHandlerFactory.get] returns the handler
    registered under exactly this name, or nothing. The factory class is
    the core library's. *)
Definition DataTypeHandlerFactory_get (name : value) : option IDataTypeHandler :=
  match name with
  | VString s => registry !! s
  | _ => None
  end.

(** [FrameworkDataTypes.validateIProperty]; [is_] is the source's [is]. *)
Definition validateIProperty (propertyName : string) (value : JS.value)
    (failures : sink) (container : JS.value) : Res bool * sink :=
  (let* is_ := Validation_object propertyName value in
   when is_
     (let* key := eval (member value "key") in
      Validation_stringValue (nameof "key" propertyName) key ;;;
      let* type := eval (member value "type") in
      let* isValidTypeUrl := Url_validate (nameof "type" propertyName) type in
      let* value_value := eval (member value "value") in
      Validation_notEmpty (nameof "value" propertyName) value_value ;;;
      when isValidTypeUrl
        (let* type := eval (member value "type") in
         let dataTypeHandler := DataTypeHandlerFactory_get type in
         match optionalValidate dataTypeHandler with
         | Some validate =>
             let* value_value := eval (member value "value") in
             (fun failures =>
                validate propertyName value_value failures container) ;;;
             ret tt
         | None => ret tt
         end)) ;;;
   ret is_) failures.

(** The failures of the three member rules of an object with these
    fields, in the order the rules are checked. *)
Definition memberFailures (propertyName : string)
    (fields : list (string * value)) : sink :=
  failureUnless (Is_stringValue (field fields "key"))
    (nameof "key" propertyName) "validation.beNotEmptyString" ++
  failureUnless (validType (field fields "type"))
    (nameof "type" propertyName) "validation.beUrl" ++
  failureUnless (Is_notEmpty (field fields "value"))
    (nameof "value" propertyName) "validation.beNotEmpty".

(** The validator the [type] member of an object resolves to: there is one
    when the member is a valid type, names a registered handler, and that
    handler has a validator. *)
Definition resolvedValidator (fields : list (string * value)) : option Validator :=
  if validType (field fields "type")
  then optionalValidate (DataTypeHandlerFactory_get (field fields "type"))
  else None.

(** The path [`${propertyName}[${i}]`]. *)
Definition elementName (propertyName : string) (i : nat) : string :=
  propertyName +:+ "[" +:+ showIndex i +:+ "]".

(** The failure pushed for a key seen before. *)
Definition keyAlreadyExists (propertyName : string) (i : nat) : IValidationFailure :=
  {| property := elementName propertyName i +:+ ".key";
     reason := "validation.properties.keyAlreadyExists" |}.

(** The body of the loop of [validateIPropertyList] at index [i], from the
    array [keys] to the array [keys] after [keys.push(value[i].key)]. *)
Definition propertyListBody (propertyName : string) (elems : list value)
    (container : value) (i : nat) (keys : list value) : M (list value) :=
  let* key := eval (member (index elems i) "key") in
  when (includes keys key) (push (keyAlreadyExists propertyName i)) ;;;
  let* key := eval (member (index elems i) "key") in
  let keys := keys ++ [key] in
  (fun failures =>
     validateIProperty (elementName propertyName i) (index elems i) failures container) ;;;
  ret keys.

(** The first [n] iterations of that loop, from [const keys = []]. *)
Definition propertyListLoop (propertyName : string) (elems : list value)
    (container : value) (n : nat) : M (list value) :=
  forUpTo n (propertyListBody propertyName elems container) [].

(** [FrameworkDataTypes.validateIPropertyList] *)
Definition validateIPropertyList (propertyName : string) (value : JS.value)
    (failures : sink) (container : JS.value) : Res bool * sink :=
  (if Is_empty value then ret true
   else
     let is_ := Is_array value in
     when is_
       (propertyListLoop propertyName (elements value) container
          (length (elements value)) ;;;
        ret tt) ;;;
     ret is_) failures.

End Validators.

(** The registrations of [TYPE_PROPERTY_LIST] and [TYPE_PROPERTY] made by
    [registerTypes], in its order (the three scalar types hand over to
    validators of the core library and are left out). The registered
    validators read the factory when they run: [handlers] is its state
    then. *)
Definition registerPropertyTypes (Url_tryParseExact : string → bool)
    (handlers registry : Registry) : Registry :=
  <[ TYPE_PROPERTY :=
       {| type := TYPE_PROPERTY;
          defaultValue := Some (VObject 1 []);
          validate := Some (validateIProperty Url_tryParseExact handlers) |} ]>
  (<[ TYPE_PROPERTY_LIST :=
        {| type := TYPE_PROPERTY_LIST;
           defaultValue := Some (VArray 1 []);
           validate := Some (validateIPropertyList Url_tryParseExact handlers) |} ]>
     registry).

(** A validator that returns (does not throw), and one that only pushes
    onto the failures array it is given. *)
Definition validator_returns (f : Validator) : Prop :=
  ∀ propertyName v failures container,
    ∃ b, (f propertyName v failures container).1 = Ok b.

Definition validator_pushes (f : Validator) : Prop :=
  ∀ propertyName v failures container,
    ∃ pushed, (f propertyName v failures container).2 = failures ++ pushed.

(** A registry all of whose validators have the property [P]. *)
Definition registry_all (P : Validator → Prop) (registry : Registry) : Prop :=
  ∀ name handler f,
    registry !! name = Some handler → validate handler = Some f → P f.

(** [value[i].key] for an element that is neither [null] nor [undefined]. *)
Definition keyOf (v : value) : value :=
  match member v "key" with Ok key => key | Throw _ => VUndefined end.

(** What the loop itself pushes at index [i]: the duplicate-key failure
    when the key of [v] is among the keys of the elements before it. *)
Definition duplicateFailure (propertyName : string) (elems : list value)
    (i : nat) (v : value) : sink :=
  if includes (keyOf <$> take i elems) (keyOf v)
  then [keyAlreadyExists propertyName i] else [].

End FrameworkDataTypes.

(* ===================================================================== *)
(** ** Concrete collaborators for the examples *)
(* ===================================================================== *)

Module Examples.

Import FrameworkDataTypes.

(** [s.split(sep)] for a one-character separator. *)
Fixpoint splitOn (sep : ascii) (s : string) : list string :=
  match s with
  | EmptyString => [EmptyString]
  | String c rest =>
      if Ascii.eqb c sep then EmptyString :: splitOn sep rest
      else match splitOn sep rest with
           | [] => [String c EmptyString]
           | segment :: segments => String c segment :: segments
           end
  end.

(** Modelled from the spec: the identifier grammar of the [Urn] class,
    which is the core library's: segments separated by [:], none of them
    empty. *)
Definition Urn_parts (uri : string) : list string := splitOn ":" uri.

Definition Urn_tryParseExact (uri : string) : bool :=
  forallb (fun segment => negb (String.eqb segment "")) (Urn_parts uri).

Definition resolveNamespace : list string -> string -> Res (option string) :=
  IdentifierHandlerFactory.resolveNamespace Urn_tryParseExact Urn_parts.

(** A stand-in for the URL parser: the strings under one scheme. *)
Definition Url_tryParseExact (s : string) : bool :=
  String.prefix "https://" s && negb (String.eqb s "https://").

(** A validator that reports one failure for every value and returns. *)
Definition alwaysFails : Validator :=
  fun propertyName value failures container =>
    (Ok false,
     failures ++ [ {| property := propertyName; reason := "validation.never" |} ]).

Definition TYPE_NEVER := "https://schema.example/Never".
Definition TYPE_PLAIN := "https://schema.example/Plain".
Definition TYPE_UNKNOWN := "https://schema.example/Unknown".

(** A registry with a handler that validates and one that has no validator. *)
Definition registry : Registry :=
  <[ TYPE_NEVER :=
       {| type := TYPE_NEVER; defaultValue := None; validate := Some alwaysFails |} ]>
  (<[ TYPE_PLAIN :=
       {| type := TYPE_PLAIN; defaultValue := None; validate := None |} ]> ∅).

Definition validateIProperty :=
  FrameworkDataTypes.validateIProperty Url_tryParseExact registry.

Definition validateIPropertyList :=
  FrameworkDataTypes.validateIPropertyList Url_tryParseExact registry.

End Examples.

(* ===================================================================== *)
(** ** Registration of the data types *)
(* ===================================================================== *)

Module Registration.

Import FrameworkDataTypes.

(** Modelled from the spec: [DataTypeHandlerFactory.register] of the core
    library's factory stores the handler its generator makes under the
    name; a later registration under the same name replaces the earlier
    one. *)
Definition DataTypeHandlerFactory_register (name : string)
    (generator : unit → IDataTypeHandler) (registry : Registry) : Registry :=
  <[ name := generator tt ]> registry.

Definition TYPE_URN := "https://schema.gtsc.io/URN".
Definition TYPE_TIMESTAMP_MILLISECONDS :=
  "https://schema.gtsc.io/TimestampMilliseconds".
Definition TYPE_TIMESTAMP_SECONDS := "https://schema.gtsc.io/TimestampSeconds".

(** A property is well formed when it passes the four rules of
    [validateIProperty]: an object with a non-empty string [key], a valid
    [type] and a [value] that is neither [undefined] nor [null]. *)
Definition wellFormed (Url_tryParseExact : string → bool) (v : value) : bool :=
  match v with
  | VObject _ fields =>
      Is_stringValue (field fields "key") &&
      validType Url_tryParseExact (field fields "type") &&
      Is_notEmpty (field fields "value")
  | _ => false
  end.

(** The duplicate-key failures of a whole list, in index order. *)
Definition duplicateFailures (propertyName : string) (elems : list value) : sink :=
  concat (imap (duplicateFailure propertyName elems) elems).

Section FrameworkTypes.

(** The collaborators of the core library that [registerTypes] hands to
    the factory or calls: the URL parser, the validators of the scalar
    types, the clock and [Math.floor]. All are parameters. *)
Variable Url_tryParseExact : string → bool.
Variable Urn_validate : string → value → sink → Res bool * sink.
Variable Validation_timestampMilliseconds : string → value → sink → Res bool * sink.
Variable Validation_timestampSeconds : string → value → sink → Res bool * sink.
Variable Date_now : float.
Variable Math_floor : float → float.

(** The state of the factory when a registered validator runs. *)
Variable handlers : Registry.

(** [FrameworkDataTypes.registerTypes], registration by registration. *)
Definition registerTypes (registry : Registry) : Registry :=
  let registry :=
    DataTypeHandlerFactory_register TYPE_URN (fun _ =>
      {| type := TYPE_URN;
         defaultValue := Some (VString "");
         validate := Some (fun propertyName value failures container =>
                             Urn_validate propertyName value failures) |})
      registry in
  let registry :=
    DataTypeHandlerFactory_register TYPE_TIMESTAMP_MILLISECONDS (fun _ =>
      {| type := TYPE_TIMESTAMP_MILLISECONDS;
         defaultValue := Some (VNumber Date_now);
         validate := Some (fun propertyName value failures container =>
                             Validation_timestampMilliseconds
                               propertyName value failures) |})
      registry in
  let registry :=
    DataTypeHandlerFactory_register TYPE_TIMESTAMP_SECONDS (fun _ =>
      {| type := TYPE_TIMESTAMP_SECONDS;
         defaultValue := Some (VNumber (Math_floor (Date_now / 1000)));
         validate := Some (fun propertyName value failures container =>
                             Validation_timestampSeconds
                               propertyName value failures) |})
      registry in
  let registry :=
    DataTypeHandlerFactory_register TYPE_PROPERTY_LIST (fun _ =>
      {| type := TYPE_PROPERTY_LIST;
         defaultValue := Some (VArray 1 []);
         validate := Some (fun propertyName value failures container =>
                             validateIPropertyList Url_tryParseExact handlers
                               propertyName value failures container) |})
      registry in
  DataTypeHandlerFactory_register TYPE_PROPERTY (fun _ =>
    {| type := TYPE_PROPERTY;
       defaultValue := Some (VObject 1 []);
       validate := Some (fun propertyName value failures container =>
                           validateIProperty Url_tryParseExact handlers
                             propertyName value failures container) |})
    registry.

End FrameworkTypes.

End Registration.

(* ===================================================================== *)
(** ** JsonLdDataTypes *)
(* ===================================================================== *)

Module JsonLdDataTypes.

Import FrameworkDataTypes Registration.

(** The members of [JsonLdTypes] that [registerTypes] names. *)
Inductive JsonLdTypeName : Type :=
| Document | Object | NodeObject | NodePrimitive | GraphObject | ValueObject
| ListObject | SetObject | LanguageMap | IndexMap | IndexMapItem | IdMap
| TypeMap | IncludedBlock | ContextDefinition | ExpandedTermDefinition
| Keyword | ListOrSetItem | ContainerType | ContainerTypeArray
| JsonPrimitive | JsonArray | JsonObject | JsonValue.

(** The calls of [registerTypes] in the order of the source; [ListObject]
    is registered twice in a row. *)
Definition registrations : list JsonLdTypeName :=
  [ Document; Object; NodeObject; NodePrimitive; GraphObject; ValueObject;
    ListObject; ListObject; SetObject; LanguageMap; IndexMap; IndexMapItem;
    IdMap; TypeMap; IncludedBlock; ContextDefinition; ExpandedTermDefinition;
    Keyword; ListOrSetItem; ContainerType; ContainerTypeArray;
    JsonPrimitive; JsonArray; JsonObject; JsonValue ].

Section Types.

(** The strings of the [JsonLdTypes] enumeration (models/jsonLdTypes is
    not among the sources): the context root and the name of each member. *)
Variable ContextRoot : string.
Variable JsonLdTypes : JsonLdTypeName → string.

(** The handler each call registers: the bare type name, no default value,
    no validator (its only other member is the schema). *)
Definition handler (t : JsonLdTypeName) : IDataTypeHandler :=
  {| type := JsonLdTypes t; defaultValue := None; validate := None |}.

(** One call:
    [DataTypeHandlerFactory.register(`${ContextRoot}${t}`, () => ({...}))]. *)
Definition registerType (registry : Registry) (t : JsonLdTypeName) : Registry :=
  DataTypeHandlerFactory_register (ContextRoot +:+ JsonLdTypes t)
    (fun _ => handler t) registry.

(** [JsonLdDataTypes.registerTypes]: the calls one after the other. *)
Definition registerTypes (registry : Registry) : Registry :=
  foldl registerType registry registrations.

End Types.

End JsonLdDataTypes.

(* ===================================================================== *)
(** ** Concrete collaborators for the registrations *)
(* ===================================================================== *)

Module RegistrationExamples.

Import FrameworkDataTypes Registration.

(** Stand-ins for the scalar validators: one accepts every value, one
    reports a failure for every value. *)
Definition accepts (propertyName : string) (v : value) (failures : sink)
  : Res bool * sink := (Ok true, failures).

Definition rejects (propertyName : string) (v : value) (failures : sink)
  : Res bool * sink :=
  (Ok false,
   failures ++ [ {| property := propertyName; reason := "validation.rejected" |} ]).

(** The framework types registered on an empty factory; the registered
    validators see the example registry. *)
Definition frameworkRegistry : Registry :=
  registerTypes Examples.Url_tryParseExact accepts rejects rejects 0%float
    (fun x => x) Examples.registry ∅.

(** Stand-ins for the strings of [JsonLdTypes]. *)
Definition ContextRoot := "https://schema.example/json-ld/".

Definition JsonLdTypes (t : JsonLdDataTypes.JsonLdTypeName) : string :=
  match t with
  | JsonLdDataTypes.Document => "JsonLdDocument"
  | JsonLdDataTypes.Object => "JsonLdObject"
  | JsonLdDataTypes.NodeObject => "JsonLdNodeObject"
  | JsonLdDataTypes.NodePrimitive => "JsonLdNodePrimitive"
  | JsonLdDataTypes.GraphObject => "JsonLdGraphObject"
  | JsonLdDataTypes.ValueObject => "JsonLdValueObject"
  | JsonLdDataTypes.ListObject => "JsonLdListObject"
  | JsonLdDataTypes.SetObject => "JsonLdSetObject"
  | JsonLdDataTypes.LanguageMap => "JsonLdLanguageMap"
  | JsonLdDataTypes.IndexMap => "JsonLdIndexMap"
  | JsonLdDataTypes.IndexMapItem => "JsonLdIndexMapItem"
  | JsonLdDataTypes.IdMap => "JsonLdIdMap"
  | JsonLdDataTypes.TypeMap => "JsonLdTypeMap"
  | JsonLdDataTypes.IncludedBlock => "JsonLdIncludedBlock"
  | JsonLdDataTypes.ContextDefinition => "JsonLdContextDefinition"
  | JsonLdDataTypes.ExpandedTermDefinition => "JsonLdExpandedTermDefinition"
  | JsonLdDataTypes.Keyword => "JsonLdKeyword"
  | JsonLdDataTypes.ListOrSetItem => "JsonLdListOrSetItem"
  | JsonLdDataTypes.ContainerType => "JsonLdContainerType"
  | JsonLdDataTypes.ContainerTypeArray => "JsonLdContainerTypeArray"
  | JsonLdDataTypes.JsonPrimitive => "JsonLdJsonPrimitive"
  | JsonLdDataTypes.JsonArray => "JsonLdJsonArray"
  | JsonLdDataTypes.JsonObject => "JsonLdJsonObject"
  | JsonLdDataTypes.JsonValue => "JsonLdJsonValue"
  end.

Definition jsonLdRegistry : Registry :=
  JsonLdDataTypes.registerTypes ContextRoot JsonLdTypes ∅.




End RegistrationExamples.

(* ===================================================================== *)
(** ** Properties of the namespace matcher *)
(* ===================================================================== *)

Module IdentifierHandlerFactoryFacts.

Import IdentifierHandlerFactory.

Section Matcher.

Variable Urn_tryParseExact : string -> bool.
Variable Urn_parts : string -> list string.

(** The candidate of the iteration with index [i]. *)
Local Abbreviation candidate urnParts i := (join ":" (drop i urnParts)).

Lemma matchLoop_None names urnParts n :
  matchLoop names urnParts n = None ↔
  ∀ i, i < n → candidate urnParts i ∉ names.
Proof.
  induction n as [|n IH]; simpl.
  - split; [intros _ i Hi; lia | done].
  - case_bool_decide as Hin.
    + split; [done | intros H; exfalso; apply (H n); [lia | done]].
    + rewrite IH. split.
      * intros H i Hi. destruct (decide (i = n)) as [->|]; [done|].
        apply H. lia.
      * intros H i Hi. apply H. lia.
Qed.

Lemma matchLoop_Some names urnParts n w :
  matchLoop names urnParts n = Some w ↔
  ∃ i, i < n ∧ w = candidate urnParts i ∧ w ∈ names ∧
       ∀ j, i < j < n → candidate urnParts j ∉ names.
Proof.
  induction n as [|n IH]; simpl.
  - split; [done | intros (i & Hi & _); lia].
  - case_bool_decide as Hin.
    + split.
      * intros [= <-]. exists n. split_and!; [lia | done | done |].
        intros j Hj; lia.
      * intros (i & Hi & -> & Hw & Hshorter).
        destruct (decide (i = n)) as [->|Hne]; [done|].
        exfalso. apply (Hshorter n); [lia | done].
    + rewrite IH. split.
      * intros (i & Hi & -> & Hw & Hshorter). exists i.
        split_and!; [lia | done | done |].
        intros j Hj. destruct (decide (j = n)) as [->|]; [done|].
        apply Hshorter. lia.
      * intros (i & Hi & -> & Hw & Hshorter).
        destruct (decide (i = n)) as [->|Hne]; [done|].
        exists i. split_and!; [lia | done | done |].
        intros j Hj. apply Hshorter. lia.
Qed.

Lemma resolveNamespace_valid names uri :
  Urn_tryParseExact uri = true →
  resolveNamespace Urn_tryParseExact Urn_parts names uri =
  Ok (matchLoop names (Urn_parts uri) (length (Urn_parts uri))).
Proof. intros Hvalid. unfold resolveNamespace, Urn_guard. by rewrite Hvalid. Qed.

(** C1 (as the code has it): on a valid identifier the matcher tries the
    suffixes of the segment sequence from the shortest (the last segment
    alone, index [length - 1]) to the longest (the whole identifier,
    index [0]), so it returns [w] exactly when [w] is a registered suffix
    and no shorter suffix is registered: the shortest registered suffix
    wins. *)
Theorem resolveNamespace_shortest_suffix names uri w :
  Urn_tryParseExact uri = true →
  resolveNamespace Urn_tryParseExact Urn_parts names uri = Ok (Some w) ↔
  ∃ i, i < length (Urn_parts uri) ∧
       w = candidate (Urn_parts uri) i ∧ w ∈ names ∧
       ∀ j, i < j < length (Urn_parts uri) →
            candidate (Urn_parts uri) j ∉ names.
Proof.
  intros Hvalid. rewrite resolveNamespace_valid by done.
  rewrite <- matchLoop_Some. split; [by intros [= ->] | by intros ->].
Qed.

(** C6: a string that does not parse as an identifier makes the matcher
    throw the guard error, whatever the candidate names are and before the
    segments are looked at. *)
Theorem resolveNamespace_malformed names uri :
  Urn_tryParseExact uri = false →
  resolveNamespace Urn_tryParseExact Urn_parts names uri =
  Throw (MalformedIdentifier "IdentifierHandlerFactory" "uri" uri).
Proof. intros Hbad. unfold resolveNamespace, Urn_guard. by rewrite Hbad. Qed.

(** C8: when no suffix of the segment sequence of a valid identifier is a
    candidate name, the matcher returns nothing and does not throw. *)
Theorem resolveNamespace_no_match names uri :
  Urn_tryParseExact uri = true →
  (∀ i, i < length (Urn_parts uri) → candidate (Urn_parts uri) i ∉ names) →
  resolveNamespace Urn_tryParseExact Urn_parts names uri = Ok None.
Proof.
  intros Hvalid Hnone. rewrite resolveNamespace_valid by done.
  f_equal. by apply matchLoop_None.
Qed.

End Matcher.

(** The identifier [a:b:c] has the segments [a], [b], [c]; the empty string
    and a lone delimiter are not identifiers. *)
Example parts_abc : Examples.Urn_parts "a:b:c" = ["a"; "b"; "c"].
Proof. reflexivity. Qed.

Example empty_and_delimiter_malformed :
  Examples.Urn_tryParseExact "" = false ∧ Examples.Urn_tryParseExact ":" = false.
Proof. split; reflexivity. Qed.

(** With [b:c] and [c] registered, [a:b:c] resolves to [c]. *)
Lemma resolveNamespace_shortest_suffix_witness :
  Examples.Urn_tryParseExact "a:b:c" = true ∧
  Examples.resolveNamespace ["b:c"; "c"] "a:b:c" = Ok (Some "c").
Proof.
  split; [reflexivity|].
  apply (proj2 (resolveNamespace_shortest_suffix
                  Examples.Urn_tryParseExact Examples.Urn_parts
                  ["b:c"; "c"] "a:b:c" "c" eq_refl)).
  exists 2. split; [simpl; lia|]. split; [reflexivity|].
  split; [apply (bool_decide_unpack _); reflexivity|].
  simpl. intros j Hj. lia.
Defined.

(** The claim as the spec words it fails: with [a:b] and [a] registered
    nothing is returned for [a:b:c] (neither name is a suffix), and of the
    two registered suffixes [b:c] and [c] the shorter one is returned. *)
Lemma resolveNamespace_longest_counterexample :
  Examples.resolveNamespace ["a:b"; "a"] "a:b:c" = Ok None ∧
  Examples.resolveNamespace ["a:b"; "a"] "a:b:c" ≠ Ok (Some "a:b") ∧
  Examples.resolveNamespace ["b:c"; "c"] "a:b:c" = Ok (Some "c") ∧
  Examples.resolveNamespace ["b:c"; "c"] "a:b:c" ≠ Ok (Some "b:c").
Proof. split_and!; [reflexivity | discriminate | reflexivity | discriminate]. Qed.

Lemma resolveNamespace_malformed_witness :
  Examples.Urn_tryParseExact ":" = false ∧
  Examples.resolveNamespace ["x:y"] ":" =
  Throw (MalformedIdentifier "IdentifierHandlerFactory" "uri" ":").
Proof.
  split; [reflexivity|].
  apply (resolveNamespace_malformed
           Examples.Urn_tryParseExact Examples.Urn_parts ["x:y"] ":").
  reflexivity.
Defined.

Lemma resolveNamespace_no_match_witness :
  Examples.Urn_tryParseExact "a:b:c" = true ∧
  Examples.resolveNamespace ["x:y"] "a:b:c" = Ok None.
Proof.
  split; [reflexivity|].
  apply (resolveNamespace_no_match
           Examples.Urn_tryParseExact Examples.Urn_parts ["x:y"] "a:b:c");
    [reflexivity|].
  intros i Hi. simpl in Hi.
  destruct i as [|[|[|i]]]; [| | | lia];
    apply (bool_decide_unpack _); reflexivity.
Defined.

End IdentifierHandlerFactoryFacts.

(* ===================================================================== *)
(** ** Properties of the validators *)
(* ===================================================================== *)

Module FrameworkDataTypesFacts.

Import FrameworkDataTypes.

(** *** The sink monad *)

Lemma bind_Ok {A B} (m : M A) (k : A → M B) failures a failures' :
  m failures = (Ok a, failures') → bind m k failures = k a failures'.
Proof. unfold bind. by intros ->. Qed.

Lemma check_run is_ property rule failures :
  check is_ property rule failures =
  (Ok is_, failures ++ failureUnless is_ property rule).
Proof. destruct is_; cbn; by rewrite ?app_nil_r. Qed.

Lemma bind_check {B} is_ property rule (k : bool → M B) failures :
  bind (check is_ property rule) k failures =
  k is_ (failures ++ failureUnless is_ property rule).
Proof. apply bind_Ok, check_run. Qed.

Lemma bind_eval_Ok {A B} (a : A) (k : A → M B) failures :
  bind (eval (Ok a)) k failures = k a failures.
Proof. reflexivity. Qed.

Lemma bind_ret {A B} (a : A) (k : A → M B) failures :
  bind (ret a) k failures = k a failures.
Proof. reflexivity. Qed.

Section Validators.

Variable Url_tryParseExact : string → bool.
Variable registry : Registry.

Local Abbreviation validateIProperty :=
  (FrameworkDataTypes.validateIProperty Url_tryParseExact registry).
Local Abbreviation validateIPropertyList :=
  (FrameworkDataTypes.validateIPropertyList Url_tryParseExact registry).
Local Abbreviation propertyListLoop :=
  (FrameworkDataTypes.propertyListLoop Url_tryParseExact registry).
Local Abbreviation propertyListBody :=
  (FrameworkDataTypes.propertyListBody Url_tryParseExact registry).

(** *** validateIProperty, case by case *)

Lemma validateIProperty_not_object propertyName v failures container :
  Is_object v = false →
  validateIProperty propertyName v failures container =
  (Ok false,
   failures ++ [ {| property := propertyName; reason := "validation.beObject" |} ]).
Proof.
  intros Hv. unfold FrameworkDataTypes.validateIProperty, Validation_object.
  rewrite bind_check, Hv. reflexivity.
Qed.

Lemma validateIProperty_object propertyName r fields failures container :
  validateIProperty propertyName (VObject r fields) failures container =
  match resolvedValidator Url_tryParseExact registry fields with
  | Some f =>
      match f propertyName (field fields "value")
              (failures ++ memberFailures Url_tryParseExact propertyName fields)
              container with
      | (Ok _, failures') => (Ok true, failures')
      | (Throw e, failures') => (Throw e, failures')
      end
  | None =>
      (Ok true, failures ++ memberFailures Url_tryParseExact propertyName fields)
  end.
Proof.
  unfold FrameworkDataTypes.validateIProperty, Validation_object,
    Validation_stringValue, Validation_notEmpty, Url_validate,
    resolvedValidator, memberFailures.
  rewrite bind_check. cbn [Is_object when member failureUnless].
  rewrite app_nil_r.
  unfold bind at 1.
  repeat (rewrite ?bind_eval_Ok, ?bind_check).
  rewrite <- !app_assoc.
  destruct (validType Url_tryParseExact (field fields "type")); cbn [when]; [|done].
  rewrite bind_eval_Ok. cbv zeta.
  destruct (optionalValidate (DataTypeHandlerFactory_get registry (field fields "type")))
    as [f|]; [|done].
  rewrite bind_eval_Ok.
  unfold bind. by destruct (f _ _ _ _) as [[b|e] failures'].
Qed.

Lemma resolvedValidator_registered fields f :
  resolvedValidator Url_tryParseExact registry fields = Some f →
  ∃ name handler, registry !! name = Some handler ∧ validate handler = Some f.
Proof.
  unfold resolvedValidator, optionalValidate, DataTypeHandlerFactory_get.
  destruct (validType _ _); [|done].
  destruct (field fields "type") as [| | | |name| |]; try done.
  destruct (registry !! name) as [handler|] eqn:Hname; [|done].
  cbn. intros Hf. by exists name, handler.
Qed.

Lemma validateIProperty_result propertyName v failures container :
  registry_all validator_returns registry →
  (validateIProperty propertyName v failures container).1 = Ok (Is_object v).
Proof.
  intros Hreturns. destruct (Is_object v) eqn:Hv.
  - destruct v; try done. rewrite validateIProperty_object.
    destruct (resolvedValidator _ _ _) as [f|] eqn:Hf; [|done].
    apply resolvedValidator_registered in Hf as (name & handler & Hname & Hf).
    destruct (Hreturns name handler f Hname Hf propertyName (field fields "value")
                (failures ++ memberFailures Url_tryParseExact propertyName fields)
                container) as [b Hb].
    destruct (f _ _ _ _) as [[b'|e] failures']; [done | discriminate].
  - by rewrite validateIProperty_not_object.
Qed.

Lemma validateIProperty_pushes propertyName v failures container :
  registry_all validator_pushes registry →
  ∃ pushed,
    (validateIProperty propertyName v failures container).2 = failures ++ pushed.
Proof.
  intros Hpushes. destruct (Is_object v) eqn:Hv.
  - destruct v; try done. rewrite validateIProperty_object.
    destruct (resolvedValidator _ _ _) as [f|] eqn:Hf; [|by eexists].
    apply resolvedValidator_registered in Hf as (name & handler & Hname & Hf).
    destruct (Hpushes name handler f Hname Hf propertyName (field fields "value")
                (failures ++ memberFailures Url_tryParseExact propertyName fields)
                container) as [pushed Hpushed].
    exists (memberFailures Url_tryParseExact propertyName fields ++ pushed).
    rewrite app_assoc, <- Hpushed.
    by destruct (f _ _ _ _) as [[b'|e] failures'].
  - rewrite validateIProperty_not_object by done. by eexists.
Qed.

Lemma validateIProperty_run propertyName v failures container :
  registry_all validator_returns registry →
  registry_all validator_pushes registry →
  ∃ pushed,
    validateIProperty propertyName v failures container =
    (Ok (Is_object v), failures ++ pushed).
Proof.
  intros Hreturns Hpushes.
  destruct (validateIProperty_pushes propertyName v failures container Hpushes)
    as [pushed Hpushed].
  exists pushed. rewrite <- Hpushed.
  rewrite <- (validateIProperty_result propertyName v failures container Hreturns).
  apply surjective_pairing.
Qed.

(** *** The loop of validateIPropertyList *)

Lemma member_not_empty v :
  Is_empty v = false → member v "key" = Ok (keyOf v).
Proof. by destruct v. Qed.

Lemma propertyListBody_run propertyName elems container i keys failures :
  Is_empty (index elems i) = false →
  propertyListBody propertyName elems container i keys failures =
  match validateIProperty (elementName propertyName i) (index elems i)
          (failures ++ (if includes keys (keyOf (index elems i))
                        then [keyAlreadyExists propertyName i] else []))
          container with
  | (Ok _, failures') => (Ok (keys ++ [keyOf (index elems i)]), failures')
  | (Throw e, failures') => (Throw e, failures')
  end.
Proof.
  intros Hv. unfold FrameworkDataTypes.propertyListBody.
  rewrite (member_not_empty _ Hv), bind_eval_Ok.
  destruct (includes keys (keyOf (index elems i))); cbn [when].
  - unfold bind at 1. cbn [push]. rewrite bind_eval_Ok.
    unfold bind. by destruct (FrameworkDataTypes.validateIProperty _ _ _ _ _ _) as [[b|e] ?].
  - rewrite bind_ret, bind_eval_Ok, app_nil_r.
    unfold bind. by destruct (FrameworkDataTypes.validateIProperty _ _ _ _ _ _) as [[b|e] ?].
Qed.

Lemma propertyListBody_throws propertyName elems container i keys failures :
  Is_empty (index elems i) = true →
  propertyListBody propertyName elems container i keys failures =
  (Throw TypeError, failures).
Proof.
  intros Hv. unfold FrameworkDataTypes.propertyListBody.
  by destruct (index elems i).
Qed.

Lemma propertyListBody_pushes propertyName elems container i keys failures :
  registry_all validator_pushes registry →
  ∃ pushed,
    (propertyListBody propertyName elems container i keys failures).2 =
    failures ++ pushed.
Proof.
  intros Hpushes. destruct (Is_empty (index elems i)) eqn:Hv.
  - rewrite propertyListBody_throws by done. exists []. by rewrite app_nil_r.
  - rewrite propertyListBody_run by done.
    set (duplicate := if includes keys _ then _ else _).
    destruct (validateIProperty_pushes (elementName propertyName i)
                (index elems i) (failures ++ duplicate) container Hpushes)
      as [pushed Hpushed].
    exists (duplicate ++ pushed). rewrite app_assoc, <- Hpushed.
    by destruct (FrameworkDataTypes.validateIProperty _ _ _ _ _ _) as [[b|e] ?].
Qed.

Lemma propertyListLoop_S propertyName elems container n :
  propertyListLoop propertyName elems container (S n) =
  bind (propertyListLoop propertyName elems container n)
       (propertyListBody propertyName elems container n).
Proof. reflexivity. Qed.

Lemma validateIPropertyList_array propertyName r elems failures container :
  validateIPropertyList propertyName (VArray r elems) failures container =
  match propertyListLoop propertyName elems container (length elems) failures with
  | (Ok _, failures') => (Ok true, failures')
  | (Throw e, failures') => (Throw e, failures')
  end.
Proof.
  unfold FrameworkDataTypes.validateIPropertyList.
  cbn [Is_empty Is_array when elements]. unfold bind.
  by destruct (FrameworkDataTypes.propertyListLoop _ _ _ _ _ _ _) as [[keys|e] ?].
Qed.

(** The sink after [k] iterations extends the sink after [k - 1] by what
    iteration [k - 1] pushed. *)
Lemma propertyListLoop_segments propertyName elems container failures n :
  registry_all validator_pushes registry →
  ∃ segments : list sink,
    length segments = n ∧
    ∀ k, (k ≤ n)%nat →
      (propertyListLoop propertyName elems container k failures).2 =
      failures ++ concat (take k segments).
Proof.
  intros Hpushes. induction n as [|n (segments & Hlen & IH)].
  - exists []. split; [done|]. intros k Hk. replace k with 0 by lia.
    cbn. by rewrite app_nil_r.
  - assert (∃ pushed,
        (propertyListLoop propertyName elems container (S n) failures).2 =
        (propertyListLoop propertyName elems container n failures).2 ++ pushed)
      as [pushed Hpushed].
    { rewrite propertyListLoop_S. unfold bind at 1.
      destruct (FrameworkDataTypes.propertyListLoop _ _ _ _ _ n failures)
        as [[keys|e] failures'].
      - apply propertyListBody_pushes, Hpushes.
      - exists []. by rewrite app_nil_r. }
    exists (segments ++ [pushed]). split; [rewrite length_app; simpl; lia|].
    intros k Hk. destruct (decide (k = S n)) as [->|Hne].
    + rewrite Hpushed, (IH n) by lia.
      rewrite !take_ge by (rewrite ?length_app; simpl; lia).
      rewrite concat_app. cbn. by rewrite app_nil_r, app_assoc.
    + rewrite take_app_le by lia. apply IH. lia.
Qed.

(** Without [null] or [undefined] elements and with validators that return
    and only push, [k] iterations leave the keys of the first [k] elements
    in [keys]. *)
Lemma propertyListLoop_run propertyName elems container failures k :
  registry_all validator_returns registry →
  registry_all validator_pushes registry →
  Forall (λ v, Is_empty v = false) elems →
  (k ≤ length elems)%nat →
  ∃ pushed,
    propertyListLoop propertyName elems container k failures =
    (Ok (keyOf <$> take k elems), failures ++ pushed).
Proof.
  intros Hreturns Hpushes Helems. induction k as [|k IH]; intros Hk.
  - exists []. cbn. by rewrite app_nil_r, take_0.
  - destruct IH as [before Hbefore]; [lia|].
    destruct (lookup_lt_is_Some_2 elems k) as [v Hv]; [lia|].
    assert (index elems k = v) as Hindex by (unfold index; by rewrite Hv).
    rewrite propertyListLoop_S. erewrite bind_Ok by exact Hbefore.
    rewrite propertyListBody_run
      by (rewrite Hindex; exact (Forall_lookup_1 _ _ _ _ Helems Hv)).
    rewrite Hindex.
    set (duplicate := if includes _ _ then _ else _).
    destruct (validateIProperty_run (elementName propertyName k) v
                ((failures ++ before) ++ duplicate) container Hreturns Hpushes)
      as [pushed ->].
    exists (before ++ duplicate ++ pushed).
    rewrite (take_S_r _ _ _ Hv), fmap_app. cbn. by rewrite <- !app_assoc.
Qed.

Lemma propertyListLoop_step propertyName elems container failures i v :
  registry_all validator_returns registry →
  registry_all validator_pushes registry →
  Forall (λ v, Is_empty v = false) elems →
  elems !! i = Some v →
  ∃ before pushed,
    propertyListLoop propertyName elems container i failures =
      (Ok (keyOf <$> take i elems), failures ++ before) ∧
    validateIProperty (elementName propertyName i) v
      (failures ++ before ++ duplicateFailure propertyName elems i v) container =
      (Ok (Is_object v),
       failures ++ before ++ duplicateFailure propertyName elems i v ++ pushed) ∧
    propertyListLoop propertyName elems container (S i) failures =
      (Ok (keyOf <$> take (S i) elems),
       failures ++ before ++ duplicateFailure propertyName elems i v ++ pushed).
Proof.
  intros Hreturns Hpushes Helems Hv.
  assert (i < length elems) as Hi by (by eapply lookup_lt_Some).
  destruct (propertyListLoop_run propertyName elems container failures i
              Hreturns Hpushes Helems) as [before Hbefore]; [lia|].
  assert (index elems i = v) as Hindex by (unfold index; by rewrite Hv).
  destruct (validateIProperty_run (elementName propertyName i) v
              (failures ++ before ++ duplicateFailure propertyName elems i v)
              container Hreturns Hpushes) as [pushed Hpushed].
  exists before, pushed. split; [done|]. split.
  - rewrite Hpushed. by rewrite <- !app_assoc.
  - rewrite propertyListLoop_S. erewrite bind_Ok by exact Hbefore.
    rewrite propertyListBody_run
      by (rewrite Hindex; exact (Forall_lookup_1 _ _ _ _ Helems Hv)).
    rewrite Hindex.
    change (if includes (keyOf <$> take i elems) (keyOf v)
            then [keyAlreadyExists propertyName i] else [])
      with (duplicateFailure propertyName elems i v).
    rewrite <- app_assoc, Hpushed.
    rewrite (take_S_r _ _ _ Hv), fmap_app. cbn. by rewrite <- !app_assoc.
Qed.

(** C2 (as the code has it): when no registered validator throws,
    [validateIProperty] returns [true] exactly when the value is an object.
    The rules on [key], [type] and [value] and the nested validator only
    push failures; none of them changes the boolean. *)
Theorem validateIProperty_true_iff_object propertyName v failures container :
  registry_all validator_returns registry →
  (validateIProperty propertyName v failures container).1 = Ok (Is_object v).
Proof. apply validateIProperty_result. Qed.

(** C5: for an object whose [type] is a valid type that names no registered
    handler, or a handler without a validator, [validateIProperty] returns
    [true] and pushes only what the rules on the members push; if the key
    and the value pass their rules too, it pushes nothing, whatever the
    value is. *)
Theorem validateIProperty_unregistered_type
    propertyName r fields t failures container :
  field fields "type" = VString t →
  validType Url_tryParseExact (VString t) = true →
  registry !! t = None ∨
    (∃ handler, registry !! t = Some handler ∧ validate handler = None) →
  validateIProperty propertyName (VObject r fields) failures container =
    (Ok true, failures ++ memberFailures Url_tryParseExact propertyName fields) ∧
  (Is_stringValue (field fields "key") = true →
   Is_notEmpty (field fields "value") = true →
   validateIProperty propertyName (VObject r fields) failures container =
     (Ok true, failures)).
Proof.
  intros Htype Hvalid Hunresolved.
  assert (resolvedValidator Url_tryParseExact registry fields = None) as Hnone.
  { unfold resolvedValidator, optionalValidate, DataTypeHandlerFactory_get.
    rewrite Htype, Hvalid.
    destruct Hunresolved as [-> | (handler & -> & Hno)]; [done | by cbn]. }
  rewrite validateIProperty_object, Hnone. split; [done|].
  intros Hkey Hvalue. unfold memberFailures.
  rewrite Htype, Hvalid, Hkey, Hvalue. cbn. by rewrite app_nil_r.
Qed.

(** C7: an absent list ([undefined] or [null]) and an empty list validate
    to [true] and push nothing. *)
Theorem validateIPropertyList_vacuous propertyName r failures container :
  validateIPropertyList propertyName VUndefined failures container = (Ok true, failures) ∧
  validateIPropertyList propertyName VNull failures container = (Ok true, failures) ∧
  validateIPropertyList propertyName (VArray r []) failures container = (Ok true, failures).
Proof. split_and!; reflexivity. Qed.

(** C10: a value that is neither absent nor an array validates to [false]
    and pushes nothing. *)
Theorem validateIPropertyList_not_array propertyName v failures container :
  Is_empty v = false →
  Is_array v = false →
  validateIPropertyList propertyName v failures container = (Ok false, failures).
Proof.
  intros Hempty Harray. unfold FrameworkDataTypes.validateIPropertyList.
  by rewrite Hempty, Harray.
Qed.

(** *** Iteration by iteration *)


(** Iterations that returned have recorded the keys of their elements. *)
Lemma propertyListLoop_keys propertyName elems container failures k keys failures' :
  propertyListLoop propertyName elems container k failures = (Ok keys, failures') →
  (k ≤ length elems)%nat →
  keys = keyOf <$> take k elems.
Proof.
  revert keys failures'. induction k as [|k IH]; intros keys failures' Hloop Hk.
  - cbn in Hloop. injection Hloop as <- _. by rewrite take_0.
  - rewrite propertyListLoop_S in Hloop. unfold bind in Hloop.
    destruct (propertyListLoop propertyName elems container k failures)
      as [[keys0|e] failures0]; [|done].
    rewrite (IH keys0 failures0 eq_refl) in Hloop by lia. clear IH.
    destruct (lookup_lt_is_Some_2 elems k) as [v Hv]; [lia|].
    assert (index elems k = v) as Hindex by (unfold index; by rewrite Hv).
    destruct (Is_empty v) eqn:Hempty.
    + by rewrite propertyListBody_throws in Hloop by (by rewrite Hindex).
    + rewrite propertyListBody_run in Hloop by (by rewrite Hindex).
      rewrite Hindex in Hloop.
      destruct (FrameworkDataTypes.validateIProperty _ _ _ _ _ _) as [[b|e] ?];
        [|done].
      injection Hloop as <- _. by rewrite (take_S_r _ _ _ Hv), fmap_app.
Qed.

(** What iteration [i] does, from what the iterations before it left. *)
Lemma propertyListLoop_iteration propertyName elems container failures i v :
  elems !! i = Some v →
  match propertyListLoop propertyName elems container i failures with
  | (Ok keys, before) =>
      keys = keyOf <$> take i elems ∧
      propertyListLoop propertyName elems container (S i) failures =
      if Is_empty v then (Throw TypeError, before)
      else
        match validateIProperty (elementName propertyName i) v
                (before ++ duplicateFailure propertyName elems i v) container with
        | (Ok _, after) => (Ok (keyOf <$> take (S i) elems), after)
        | (Throw e, after) => (Throw e, after)
        end
  | (Throw e, before) =>
      propertyListLoop propertyName elems container (S i) failures =
      (Throw e, before)
  end.
Proof.
  intros Hv. assert (i < length elems) as Hi by (by eapply lookup_lt_Some).
  assert (index elems i = v) as Hindex by (unfold index; by rewrite Hv).
  rewrite propertyListLoop_S. unfold bind.
  destruct (propertyListLoop propertyName elems container i failures)
    as [[keys|e] before] eqn:Hloop; [|done].
  apply propertyListLoop_keys in Hloop as ->; [|lia]. split; [done|].
  destruct (Is_empty v) eqn:Hempty.
  - by rewrite propertyListBody_throws by (by rewrite Hindex).
  - rewrite propertyListBody_run by (by rewrite Hindex). rewrite Hindex.
    change (if includes (keyOf <$> take i elems) (keyOf v)
            then [keyAlreadyExists propertyName i] else [])
      with (duplicateFailure propertyName elems i v).
    destruct (FrameworkDataTypes.validateIProperty _ _ _ _ _ _) as [[b|e] ?];
      [|done].
    by rewrite (take_S_r _ _ _ Hv), fmap_app.
Qed.

(** The sink iteration [i] leaves, when the iterations before it returned. *)
Lemma propertyListLoop_iteration_sink propertyName elems container failures i v
    keys before :
  elems !! i = Some v →
  propertyListLoop propertyName elems container i failures = (Ok keys, before) →
  Is_empty v = false →
  (propertyListLoop propertyName elems container (S i) failures).2 =
  (validateIProperty (elementName propertyName i) v
     (before ++ duplicateFailure propertyName elems i v) container).2.
Proof.
  intros Hv Hloop Hempty.
  pose proof (propertyListLoop_iteration propertyName elems container failures i v Hv)
    as Hiteration.
  rewrite Hloop, Hempty in Hiteration. destruct Hiteration as [_ ->].
  by destruct (FrameworkDataTypes.validateIProperty _ _ _ _ _ _) as [[b|e] ?].
Qed.

Section Delegations.

Variable propertyName : string.
Variable elems : list value.
Variable container : value.

(** Every call of [validateIProperty] on an element of the list, under the
    element's path, only pushes onto the array it is given. *)
Hypothesis Hpushes :
  ∀ i v failures', elems !! i = Some v →
    ∃ pushed,
      (validateIProperty (elementName propertyName i) v failures' container).2 =
      failures' ++ pushed.

Lemma propertyListLoop_pushed failures i :
  (i < length elems)%nat →
  ∃ pushed,
    (propertyListLoop propertyName elems container (S i) failures).2 =
    (propertyListLoop propertyName elems container i failures).2 ++ pushed.
Proof.
  intros Hi. destruct (lookup_lt_is_Some_2 elems i Hi) as [v Hv].
  pose proof (propertyListLoop_iteration propertyName elems container failures i v Hv)
    as Hiteration.
  destruct (propertyListLoop propertyName elems container i failures)
    as [[keys|e] before].
  - destruct Hiteration as [_ ->]. destruct (Is_empty v).
    + exists []. by rewrite app_nil_r.
    + destruct (Hpushes i v (before ++ duplicateFailure propertyName elems i v) Hv)
        as [pushed Hpushed].
      exists (duplicateFailure propertyName elems i v ++ pushed).
      cbn [snd]. rewrite app_assoc, <- Hpushed.
      by destruct (FrameworkDataTypes.validateIProperty _ _ _ _ _ _) as [[b|e] ?].
  - rewrite Hiteration. exists []. by rewrite app_nil_r.
Qed.

Lemma propertyListLoop_segments_of failures n :
  (n ≤ length elems)%nat →
  ∃ segments : list sink,
    length segments = n ∧
    ∀ k, (k ≤ n)%nat →
      (propertyListLoop propertyName elems container k failures).2 =
      failures ++ concat (take k segments).
Proof.
  induction n as [|n IH]; intros Hn.
  - exists []. split; [done|]. intros k Hk. replace k with 0 by lia.
    cbn. by rewrite app_nil_r.
  - destruct IH as (segments & Hlen & IH); [lia|].
    destruct (propertyListLoop_pushed failures n) as [pushed Hpushed]; [lia|].
    exists (segments ++ [pushed]). split; [rewrite length_app; simpl; lia|].
    intros k Hk. destruct (decide (k = S n)) as [->|Hne].
    + rewrite Hpushed, (IH n) by lia.
      rewrite !take_ge by (rewrite ?length_app; simpl; lia).
      rewrite concat_app. cbn. by rewrite app_nil_r, app_assoc.
    + rewrite take_app_le by lia. apply IH. lia.
Qed.

End Delegations.

Section Returning.

Variable propertyName : string.
Variable elems : list value.
Variable container : value.

(** No element is [null] or [undefined], and every call of
    [validateIProperty] on an element of the list, under the element's
    path, returns and only pushes onto the array it is given. *)
Hypothesis Helems : Forall (λ v, Is_empty v = false) elems.
Hypothesis Hdelegate :
  ∀ i v failures', elems !! i = Some v →
    ∃ b pushed,
      validateIProperty (elementName propertyName i) v failures' container =
      (Ok b, failures' ++ pushed).



End Returning.


(** C9: the failures of a list arrive in traversal order. Iteration [i]
    works on element [i] and on the array the iterations before it left:
    it pushes the duplicate-key failure of element [i], if any, and then
    hands the element and the array to [validateIProperty] under the path
    of index [i]; once an iteration has thrown nothing more happens to the
    array. So whatever element [i] adds is added before anything element
    [i + 1] adds. When the calls of [validateIProperty] on the elements
    only push, the array the call leaves is the array it was given
    followed by one segment per element in index order, the segment at
    [i] being the duplicate-key failure of element [i] followed by what
    [validateIProperty] pushed for it. *)
Theorem validateIPropertyList_traversal_order
    propertyName r elems failures container :
  (∀ i v, elems !! i = Some v →
     match propertyListLoop propertyName elems container i failures with
     | (Ok keys, before) =>
         keys = keyOf <$> take i elems ∧
         propertyListLoop propertyName elems container (S i) failures =
         if Is_empty v then (Throw TypeError, before)
         else
           match validateIProperty (elementName propertyName i) v
                   (before ++ duplicateFailure propertyName elems i v)
                   container with
           | (Ok _, after) => (Ok (keyOf <$> take (S i) elems), after)
           | (Throw e, after) => (Throw e, after)
           end
     | (Throw e, before) =>
         propertyListLoop propertyName elems container (S i) failures =
         (Throw e, before)
     end) ∧
  validateIPropertyList propertyName (VArray r elems) failures container =
    match propertyListLoop propertyName elems container (length elems) failures with
    | (Ok _, failures') => (Ok true, failures')
    | (Throw e, failures') => (Throw e, failures')
    end ∧
  ((∀ i v failures', elems !! i = Some v →
      ∃ pushed,
        (validateIProperty (elementName propertyName i) v failures' container).2 =
        failures' ++ pushed) →
   ∃ segments : list sink,
     length segments = length elems ∧
     (∀ k, (k ≤ length elems)%nat →
        (propertyListLoop propertyName elems container k failures).2 =
        failures ++ concat (take k segments)) ∧
     (validateIPropertyList propertyName (VArray r elems) failures container).2 =
       failures ++ concat segments ∧
     (∀ i v keys before,
        elems !! i = Some v →
        propertyListLoop propertyName elems container i failures =
          (Ok keys, before) →
        Is_empty v = false →
        ∃ pushed,
          (validateIProperty (elementName propertyName i) v
             (before ++ duplicateFailure propertyName elems i v) container).2 =
            before ++ duplicateFailure propertyName elems i v ++ pushed ∧
          segments !! i =
            Some (duplicateFailure propertyName elems i v ++ pushed))).
Proof.
  split_and!.
  - intros i v. apply propertyListLoop_iteration.
  - apply validateIPropertyList_array.
  - intros Hpushes.
    destruct (propertyListLoop_segments_of propertyName elems container Hpushes
                failures (length elems)) as (segments & Hlen & Hsegments); [lia|].
    exists segments. split_and!; [done | done | |].
    + rewrite validateIPropertyList_array.
      rewrite <- (take_ge segments (length elems)) by lia.
      rewrite <- Hsegments by lia.
      by destruct (FrameworkDataTypes.propertyListLoop _ _ _ _ _ _ _) as [[keys|e] ?].
    + intros i v keys before Hv Hloop Hempty.
      assert (i < length elems) as Hi by (by eapply lookup_lt_Some).
      destruct (Hpushes i v (before ++ duplicateFailure propertyName elems i v) Hv)
        as [pushed Hpushed].
      exists pushed. split; [by rewrite Hpushed, <- app_assoc|].
      destruct (lookup_lt_is_Some_2 segments i) as [segment Hsegment]; [lia|].
      enough (segment = duplicateFailure propertyName elems i v ++ pushed)
        as <- by exact Hsegment.
      pose proof (propertyListLoop_iteration_sink propertyName elems container
                    failures i v keys before Hv Hloop Hempty) as Hsink.
      rewrite Hpushed, (Hsegments (S i)) in Hsink by lia.
      rewrite (take_S_r _ _ _ Hsegment), concat_app in Hsink. cbn in Hsink.
      rewrite app_nil_r, app_assoc, <- (Hsegments i) in Hsink by lia.
      rewrite Hloop in Hsink. cbn [snd] in Hsink.
      rewrite <- app_assoc in Hsink. by apply (app_inv_head before).
Qed.

End Validators.

(** C3 (where the code breaks it): a list whose only element is [null]
    makes [validateIPropertyList] throw a [TypeError] at [value[0].key],
    before the element reaches [validateIProperty], and nothing is pushed.
    Through the handler registered for [TYPE_PROPERTY_LIST] the same error
    leaves [validateIProperty], on a Property whose value is that list. *)
Theorem validateIPropertyList_null_element_throws :
  (∀ Url_tryParseExact registry propertyName r failures container,
     validateIPropertyList Url_tryParseExact registry
       propertyName (VArray r [VNull]) failures container =
     (Throw TypeError, failures)) ∧
  (∀ handlers registry propertyName r r' failures container,
     validateIProperty Examples.Url_tryParseExact
       (registerPropertyTypes Examples.Url_tryParseExact handlers registry)
       propertyName (IProperty r "k" TYPE_PROPERTY_LIST (VArray r' [VNull]))
       failures container =
     (Throw TypeError, failures)).
Proof.
  split; [reflexivity|].
  intros handlers registry propertyName r r' failures container.
  unfold IProperty. rewrite validateIProperty_object.
  assert (resolvedValidator Examples.Url_tryParseExact
            (registerPropertyTypes Examples.Url_tryParseExact handlers registry)
            [("key", VString "k"); ("type", VString TYPE_PROPERTY_LIST);
             ("value", VArray r' [VNull])] =
          Some (validateIPropertyList Examples.Url_tryParseExact handlers)) as ->.
  { unfold resolvedValidator, optionalValidate, registerPropertyTypes.
    change (field _ "type") with (VString TYPE_PROPERTY_LIST).
    change (validType Examples.Url_tryParseExact (VString TYPE_PROPERTY_LIST))
      with true.
    cbn [DataTypeHandlerFactory_get].
    rewrite lookup_insert_ne by done. by rewrite lookup_insert_eq. }
  change (field _ "value") with (VArray r' [VNull]).
  change (memberFailures Examples.Url_tryParseExact propertyName _)
    with (@nil IValidationFailure).
  by rewrite app_nil_r.
Qed.

(** *** The example registry *)

Lemma alwaysFails_returns : validator_returns Examples.alwaysFails.
Proof. intros propertyName v failures container. by eexists. Qed.

Lemma alwaysFails_pushes : validator_pushes Examples.alwaysFails.
Proof. intros propertyName v failures container. by eexists. Qed.

Lemma registry_all_example (P : Validator → Prop) :
  P Examples.alwaysFails → registry_all P Examples.registry.
Proof.
  intros HP name handler f Hname Hf. unfold Examples.registry in Hname.
  apply lookup_insert_Some in Hname as [[_ <-] | [_ Hname]].
  - cbn in Hf. by injection Hf as <-.
  - apply lookup_insert_Some in Hname as [[_ <-] | [_ Hname]]; [done|].
    by rewrite lookup_empty in Hname.
Qed.

(** *** The theorems at concrete inputs *)

(** The empty object [{}] fails the rules on [key], [type] and [value], all
    three failures are pushed, and the call still returns [true]: the
    boolean does not say that every structural rule passed. *)
Lemma validateIProperty_structural_counterexample :
  Examples.validateIProperty "p" (VObject 1 []) [] VUndefined =
    (Ok true,
     [ {| property := "p.key"; reason := "validation.beNotEmptyString" |};
       {| property := "p.type"; reason := "validation.beUrl" |};
       {| property := "p.value"; reason := "validation.beNotEmpty" |} ]) ∧
  Is_stringValue (field [] "key") = false ∧
  validType Examples.Url_tryParseExact (field [] "type") = false ∧
  Is_notEmpty (field [] "value") = false.
Proof. split_and!; reflexivity. Qed.

Lemma validateIProperty_true_iff_object_witness :
  registry_all validator_returns Examples.registry ∧
  (Examples.validateIProperty "p"
     (IProperty 1 "" "no url" VNull) [] VUndefined).1 = Ok true.
Proof.
  split; [apply registry_all_example, alwaysFails_returns|].
  apply (validateIProperty_true_iff_object
           Examples.Url_tryParseExact Examples.registry "p"
           (IProperty 1 "" "no url" VNull) [] VUndefined).
  apply registry_all_example, alwaysFails_returns.
Defined.

Lemma validateIProperty_unregistered_type_witness :
  Examples.registry !! Examples.TYPE_UNKNOWN = None ∧
  Examples.validateIProperty "p"
    (IProperty 1 "k" Examples.TYPE_UNKNOWN (VArray 2 [VNull])) [] VUndefined =
  (Ok true, []).
Proof.
  split; [reflexivity|].
  apply (validateIProperty_unregistered_type
           Examples.Url_tryParseExact Examples.registry "p" 1%positive
           [("key", VString "k"); ("type", VString Examples.TYPE_UNKNOWN);
            ("value", VArray 2 [VNull])]
           Examples.TYPE_UNKNOWN [] VUndefined);
    [reflexivity | reflexivity | left; reflexivity | reflexivity | reflexivity].
Defined.

Lemma validateIPropertyList_not_array_witness :
  Examples.validateIPropertyList "p" (VNumber 5) [] VUndefined = (Ok false, []) ∧
  Examples.validateIPropertyList "p" (VString "text") [] VUndefined = (Ok false, []) ∧
  Examples.validateIPropertyList "p" (VObject 1 []) [] VUndefined = (Ok false, []).
Proof.
  split_and!;
    apply (validateIPropertyList_not_array
             Examples.Url_tryParseExact Examples.registry); reflexivity.
Defined.



(** The segments of two properties with the key [k] whose validator
    reports one failure for every value. *)
Lemma validateIPropertyList_traversal_order_witness :
  let elems := [IProperty 2 "k" Examples.TYPE_NEVER (VNumber 1);
                IProperty 3 "k" Examples.TYPE_NEVER (VNumber 2)] in
  ∃ segments : list sink,
    segments !! 0 = Some ([] ++ [ {| property := "p[0]"; reason := "validation.never" |} ]) ∧
    segments !! 1 =
      Some ([ {| property := "p[1].key";
                 reason := "validation.properties.keyAlreadyExists" |} ] ++
            [ {| property := "p[1]"; reason := "validation.never" |} ]) ∧
    (Examples.validateIPropertyList "p" (VArray 1 elems) [] VUndefined).2 =
    [] ++ concat segments.
Proof.
  intros elems.
  destruct (proj2 (proj2 (validateIPropertyList_traversal_order
                            Examples.Url_tryParseExact Examples.registry
                            "p" 1%positive elems [] VUndefined)))
    as (segments & _ & _ & Hfinal & Helement).
  { intros i v failures' _. apply validateIProperty_pushes.
    apply registry_all_example, alwaysFails_pushes. }
  exists segments. split_and!; [| | exact Hfinal].
  - destruct (Helement 0 (IProperty 2 "k" Examples.TYPE_NEVER (VNumber 1))
                [] [] eq_refl eq_refl eq_refl) as (pushed & Hpushed & ->).
    cbn in Hpushed. by rewrite <- Hpushed.
  - destruct (Helement 1 (IProperty 3 "k" Examples.TYPE_NEVER (VNumber 2))
                [VString "k"]
                [ {| property := "p[0]"; reason := "validation.never" |} ]
                eq_refl eq_refl eq_refl) as (pushed & Hpushed & ->).
    cbn in Hpushed. injection Hpushed as <-. reflexivity.
Defined.

End FrameworkDataTypesFacts.

(* ===================================================================== *)
(** ** Further properties of the namespace matcher *)
(* ===================================================================== *)

Module IdentifierHandlerFactoryMore.

Import IdentifierHandlerFactory IdentifierHandlerFactoryFacts.

Section Matcher.

Variable Urn_tryParseExact : string → bool.
Variable Urn_parts : string → list string.

Local Abbreviation candidate urnParts i := (join ":" (drop i urnParts)).
Local Abbreviation resolveNamespace :=
  (IdentifierHandlerFactory.resolveNamespace Urn_tryParseExact Urn_parts).

Lemma matchLoop_agree names names' urnParts n :
  (∀ i, i < n → candidate urnParts i ∈ names ↔ candidate urnParts i ∈ names') →
  matchLoop names urnParts n = matchLoop names' urnParts n.
Proof.
  induction n as [|n IH]; intros Hagree; [done|]. simpl.
  rewrite (bool_decide_ext _ _ (Hagree n (Nat.lt_succ_diag_r n))).
  rewrite IH; [done|]. intros i Hi. apply Hagree. lia.
Qed.

(** X1: whatever the matcher returns is one of the candidate names, and it
    is the join of a non-empty suffix of the segments of a valid
    identifier. *)
Theorem resolveNamespace_returns_registered_suffix names uri w :
  resolveNamespace names uri = Ok (Some w) →
  Urn_tryParseExact uri = true ∧
  w ∈ names ∧
  ∃ i, i < length (Urn_parts uri) ∧ w = candidate (Urn_parts uri) i.
Proof.
  unfold IdentifierHandlerFactory.resolveNamespace, Urn_guard.
  destruct (Urn_tryParseExact uri); [|done].
  intros [= Hloop]. apply matchLoop_Some in Hloop as (i & Hi & -> & Hin & _).
  split_and!; [done | done | by exists i].
Qed.

(** X2: when the last segment of a valid identifier is a candidate name, it
    is the result, whatever else is registered. *)
Theorem resolveNamespace_last_segment_wins names uri segment :
  Urn_tryParseExact uri = true →
  last (Urn_parts uri) = Some segment →
  segment ∈ names →
  resolveNamespace names uri = Ok (Some segment).
Proof.
  intros Hvalid Hlast Hin. rewrite resolveNamespace_valid by done.
  f_equal. apply last_Some in Hlast as [front Hparts]. rewrite Hparts.
  apply matchLoop_Some. exists (length front).
  rewrite length_app, drop_app_length. cbn.
  split_and!; [lia | done | done | intros j Hj; lia].
Qed.

(** X3: the result depends on the candidate names only through which
    suffixes of the identifier are among them: two name lists that agree
    on every suffix (two orderings of the same names, or lists differing in
    names that are no suffix) give the same result, error included. *)
Theorem resolveNamespace_names_as_set names names' uri :
  (∀ i, i < length (Urn_parts uri) →
        candidate (Urn_parts uri) i ∈ names ↔
        candidate (Urn_parts uri) i ∈ names') →
  resolveNamespace names uri = resolveNamespace names' uri.
Proof.
  intros Hagree. unfold IdentifierHandlerFactory.resolveNamespace.
  destruct (Urn_guard _ _ _ _); [|done].
  cbv zeta. by rewrite (matchLoop_agree names names').
Qed.

End Matcher.

Lemma resolveNamespace_returns_registered_suffix_witness :
  Examples.resolveNamespace ["x"; "b:c"] "a:b:c" = Ok (Some "b:c") ∧
  "b:c" ∈ ["x"; "b:c"].
Proof.
  split; [reflexivity|].
  exact (proj1 (proj2 (resolveNamespace_returns_registered_suffix
                         Examples.Urn_tryParseExact Examples.Urn_parts
                         ["x"; "b:c"] "a:b:c" "b:c" eq_refl))).
Defined.

Lemma resolveNamespace_last_segment_wins_witness :
  Examples.resolveNamespace ["a:b:c"; "b:c"; "c"] "a:b:c" = Ok (Some "c").
Proof.
  apply (resolveNamespace_last_segment_wins
           Examples.Urn_tryParseExact Examples.Urn_parts
           ["a:b:c"; "b:c"; "c"] "a:b:c" "c");
    [reflexivity | reflexivity | apply (bool_decide_unpack _); reflexivity].
Defined.

Lemma resolveNamespace_names_as_set_witness :
  Examples.resolveNamespace ["c"; "b:c"] "a:b:c" =
  Examples.resolveNamespace ["b:c"; "zzz"; "c"; "c"] "a:b:c".
Proof.
  apply (resolveNamespace_names_as_set
           Examples.Urn_tryParseExact Examples.Urn_parts).
  intros i Hi. simpl in Hi.
  destruct i as [|[|[|i]]]; [| | | lia];
    (split; intros _; apply (bool_decide_unpack _); reflexivity)
    || (split; intros Hin; exfalso; revert Hin;
        apply (bool_decide_unpack _); reflexivity).
Defined.

End IdentifierHandlerFactoryMore.

(* ===================================================================== *)
(** ** Further properties of validateIProperty *)
(* ===================================================================== *)

Module ValidateIPropertyMore.

Import FrameworkDataTypes FrameworkDataTypesFacts Registration.

Lemma bind_Throw_run {A B} (m : M A) (k : A → M B) failures e failures' :
  m failures = (Throw e, failures') → bind m k failures = (Throw e, failures').
Proof. unfold bind. by intros ->. Qed.

(** A registry none of whose handlers has a validator. *)
Local Abbreviation no_validators registry :=
  (∀ name handler, registry !! name = Some handler → validate handler = None).

Lemma resolvedValidator_lookup Url_tryParseExact (registry : Registry) fields t :
  field fields "type" = VString t →
  validType Url_tryParseExact (VString t) = true →
  resolvedValidator Url_tryParseExact registry fields =
  optionalValidate (registry !! t).
Proof.
  intros Htype Hvalid. unfold resolvedValidator, DataTypeHandlerFactory_get.
  by rewrite Htype, Hvalid.
Qed.

Lemma resolvedValidator_ext Url_tryParseExact (registry registry' : Registry) fields :
  (∀ name, optionalValidate (registry !! name) = optionalValidate (registry' !! name)) →
  resolvedValidator Url_tryParseExact registry fields =
  resolvedValidator Url_tryParseExact registry' fields.
Proof.
  intros Hsame. unfold resolvedValidator, DataTypeHandlerFactory_get.
  destruct (validType _ _); [|done].
  destruct (field fields "type"); auto.
Qed.

Lemma validateIProperty_ext Url_tryParseExact (registry registry' : Registry)
    propertyName v failures container :
  (∀ name, optionalValidate (registry !! name) = optionalValidate (registry' !! name)) →
  validateIProperty Url_tryParseExact registry propertyName v failures container =
  validateIProperty Url_tryParseExact registry' propertyName v failures container.
Proof.
  intros Hsame. destruct (Is_object v) eqn:Hv.
  - destruct v; try done. rewrite !validateIProperty_object.
    by rewrite (resolvedValidator_ext _ registry registry').
  - by rewrite !validateIProperty_not_object.
Qed.

Lemma no_validators_resolved Url_tryParseExact (registry : Registry) fields :
  no_validators registry →
  resolvedValidator Url_tryParseExact registry fields = None.
Proof.
  intros Hnone. unfold resolvedValidator, optionalValidate, DataTypeHandlerFactory_get.
  destruct (validType _ _); [|done].
  destruct (field fields "type") as [| | | |name| |]; try done.
  destruct (registry !! name) as [handler|] eqn:Hname; [|done].
  cbn. by eapply Hnone.
Qed.

Lemma memberFailures_nil Url_tryParseExact propertyName r fields :
  memberFailures Url_tryParseExact propertyName fields = [] ↔
  wellFormed Url_tryParseExact (VObject r fields) = true.
Proof.
  unfold memberFailures, wellFormed, failureUnless.
  destruct (Is_stringValue _), (validType _ _), (Is_notEmpty _); cbn;
    split; congruence.
Qed.

Lemma validateIProperty_wellFormed Url_tryParseExact (registry : Registry)
    propertyName v failures container :
  no_validators registry →
  wellFormed Url_tryParseExact v = true →
  validateIProperty Url_tryParseExact registry propertyName v failures container =
  (Ok true, failures).
Proof.
  intros Hnone Hv. destruct v; try done.
  rewrite validateIProperty_object, no_validators_resolved by done.
  apply (memberFailures_nil _ propertyName) in Hv. by rewrite Hv, app_nil_r.
Qed.

Lemma validateIProperty_resolved Url_tryParseExact (registry : Registry)
    propertyName r fields t handler f failures container :
  field fields "type" = VString t →
  validType Url_tryParseExact (VString t) = true →
  registry !! t = Some handler →
  validate handler = Some f →
  validateIProperty Url_tryParseExact registry
    propertyName (VObject r fields) failures container =
  match f propertyName (field fields "value")
          (failures ++ memberFailures Url_tryParseExact propertyName fields)
          container with
  | (Ok _, failures') => (Ok true, failures')
  | (Throw e, failures') => (Throw e, failures')
  end.
Proof.
  intros Htype Hvalid Hhandler Hf.
  rewrite validateIProperty_object.
  rewrite (resolvedValidator_lookup _ _ _ t) by done.
  rewrite Hhandler. cbn. by rewrite Hf.
Qed.

Section Validators.

Variable Url_tryParseExact : string → bool.
Variable registry : Registry.

Local Abbreviation validateIProperty :=
  (FrameworkDataTypes.validateIProperty Url_tryParseExact registry).

(** X4: when the [type] member is a valid type whose handler has a
    validator, [validateIProperty] calls that validator with the
    unchanged property name, the [value] member, the container and the
    failures the member rules left; it returns [true] whatever the
    validator returned, and an error of the validator leaves the call as
    it is. *)
Theorem validateIProperty_delegates
    propertyName r fields t handler f failures container :
  field fields "type" = VString t →
  validType Url_tryParseExact (VString t) = true →
  registry !! t = Some handler →
  validate handler = Some f →
  validateIProperty propertyName (VObject r fields) failures container =
  match f propertyName (field fields "value")
          (failures ++ memberFailures Url_tryParseExact propertyName fields)
          container with
  | (Ok _, failures') => (Ok true, failures')
  | (Throw e, failures') => (Throw e, failures')
  end.
Proof. apply validateIProperty_resolved. Qed.

(** X5: when the [type] member is not a valid type, the factory is not
    consulted: the call returns [true] and leaves the failures of the
    member rules, the one for the type among them, whatever is
    registered. *)
Theorem validateIProperty_invalid_type propertyName r fields failures container :
  validType Url_tryParseExact (field fields "type") = false →
  validateIProperty propertyName (VObject r fields) failures container =
    (Ok true, failures ++ memberFailures Url_tryParseExact propertyName fields) ∧
  {| property := nameof "type" propertyName; reason := "validation.beUrl" |}
    ∈ memberFailures Url_tryParseExact propertyName fields.
Proof.
  intros Hinvalid. split.
  - rewrite validateIProperty_object. unfold resolvedValidator.
    by rewrite Hinvalid.
  - unfold memberFailures. rewrite Hinvalid. cbn [failureUnless].
    apply elem_of_app. right. apply elem_of_app. left. apply list_elem_of_here.
Qed.

(** X6: when no registered handler has a validator, a value passes
    [validateIProperty] untouched (result [true], nothing pushed) exactly
    when it is a well-formed property. *)
Theorem validateIProperty_clean_iff_wellFormed propertyName v failures container :
  no_validators registry →
  validateIProperty propertyName v failures container = (Ok true, failures) ↔
  wellFormed Url_tryParseExact v = true.
Proof.
  intros Hnone. split; [|by apply validateIProperty_wellFormed].
  destruct (Is_object v) eqn:Hv.
  - destruct v; try done.
    rewrite validateIProperty_object, no_validators_resolved by done.
    intros [= Hsink]. apply (memberFailures_nil _ propertyName).
    apply (app_inv_head failures). by rewrite app_nil_r.
  - rewrite validateIProperty_not_object by done. discriminate.
Qed.

End Validators.

Lemma validateIProperty_delegates_witness :
  Examples.validateIProperty "p"
    (IProperty 1 "k" Examples.TYPE_NEVER (VNumber 1)) [] VUndefined =
  (Ok true, [ {| property := "p"; reason := "validation.never" |} ]).
Proof.
  exact (validateIProperty_delegates
           Examples.Url_tryParseExact Examples.registry "p" 1%positive
           [("key", VString "k"); ("type", VString Examples.TYPE_NEVER);
            ("value", VNumber 1)]
           Examples.TYPE_NEVER
           {| type := Examples.TYPE_NEVER; defaultValue := None;
              validate := Some Examples.alwaysFails |}
           Examples.alwaysFails [] VUndefined
           eq_refl eq_refl eq_refl eq_refl).
Defined.

Lemma validateIProperty_invalid_type_witness :
  Examples.validateIProperty "p"
    (IProperty 1 "k" "never" (VNumber 1)) [] VUndefined =
  (Ok true, [ {| property := "p.type"; reason := "validation.beUrl" |} ]).
Proof.
  exact (proj1 (validateIProperty_invalid_type
                  Examples.Url_tryParseExact Examples.registry "p" 1%positive
                  [("key", VString "k"); ("type", VString "never");
                   ("value", VNumber 1)]
                  [] VUndefined eq_refl)).
Defined.

Lemma validateIProperty_clean_iff_wellFormed_witness :
  FrameworkDataTypes.validateIProperty Examples.Url_tryParseExact ∅ "p"
    (IProperty 1 "k" Examples.TYPE_UNKNOWN (VNumber 1)) [] VUndefined =
  (Ok true, []).
Proof.
  apply (validateIProperty_clean_iff_wellFormed
           Examples.Url_tryParseExact ∅ "p"
           (IProperty 1 "k" Examples.TYPE_UNKNOWN (VNumber 1)) [] VUndefined).
  - intros name handler Hname. by rewrite lookup_empty in Hname.
  - reflexivity.
Defined.

End ValidateIPropertyMore.

(* ===================================================================== *)
(** ** Further properties of validateIPropertyList *)
(* ===================================================================== *)

Module ValidateIPropertyListMore.

Import FrameworkDataTypes FrameworkDataTypesFacts Registration.
Import ValidateIPropertyMore.

Local Abbreviation no_validators registry :=
  (∀ name handler, registry !! name = Some handler → validate handler = None).

(** *** Lists *)

Lemma first_empty_split (elems : list value) :
  existsb Is_empty elems = true →
  ∃ good bad rest,
    elems = good ++ bad :: rest ∧
    Forall (λ v, Is_empty v = false) good ∧ Is_empty bad = true.
Proof.
  induction elems as [|v elems IH]; [done|]. cbn.
  destruct (Is_empty v) eqn:Hv.
  - intros _. by exists [], v, elems.
  - intros Hrest. destruct (IH Hrest) as (good & bad & rest & -> & Hgood & Hbad).
    exists (v :: good), bad, rest. split_and!; [done | by constructor | done].
Qed.

Lemma existsb_empty_false (elems : list value) :
  existsb Is_empty elems = false → Forall (λ v, Is_empty v = false) elems.
Proof.
  induction elems as [|v elems IH]; [by constructor|]. cbn.
  intros [Hv Hrest]%orb_false_iff. constructor; auto.
Qed.

Lemma NoDup_lookup_take {A} (l : list A) :
  NoDup l ↔ ∀ i x, l !! i = Some x → x ∉ take i l.
Proof.
  induction l as [|a l IH] using rev_ind.
  - split; [intros _ i x Hi; by rewrite lookup_nil in Hi | constructor].
  - rewrite NoDup_app, IH. split.
    + intros (Hl & Hdisjoint & _) i x Hi.
      destruct (decide (i < length l)) as [Hlt|Hge].
      * rewrite lookup_app_l in Hi by done.
        rewrite take_app_le by lia. by apply Hl.
      * apply lookup_lt_Some in Hi as Hbound. rewrite length_app in Hbound.
        cbn in Hbound. assert (i = length l) as -> by lia.
        rewrite list_lookup_middle in Hi by done. injection Hi as <-.
        rewrite take_app_length. intros Hin.
        apply (Hdisjoint a Hin). apply list_elem_of_here.
    + intros H. split_and!.
      * intros i x Hi. specialize (H i x).
        rewrite lookup_app_l in H by (by eapply lookup_lt_Some).
        rewrite take_app_le in H by (apply Nat.lt_le_incl; by eapply lookup_lt_Some).
        by apply H.
      * intros x Hin Hx. apply list_elem_of_singleton in Hx as ->.
        specialize (H (length l) a).
        rewrite list_lookup_middle, take_app_length in H by done. by apply H.
      * apply NoDup_singleton.
Qed.

Lemma includes_string (keys : list value) s :
  includes keys (VString s) = true ↔ VString s ∈ keys.
Proof.
  unfold includes. rewrite existsb_exists. split.
  - intros (k & Hin & Hsame). destruct k; try done.
    apply String.eqb_eq in Hsame as ->. by apply list_elem_of_In.
  - intros Hin. exists (VString s). split; [by apply list_elem_of_In|].
    cbn. apply String.eqb_refl.
Qed.

Section Validators.

Variable Url_tryParseExact : string → bool.
Variable registry : Registry.

Local Abbreviation validateIProperty :=
  (FrameworkDataTypes.validateIProperty Url_tryParseExact registry).
Local Abbreviation validateIPropertyList :=
  (FrameworkDataTypes.validateIPropertyList Url_tryParseExact registry).
Local Abbreviation propertyListLoop :=
  (FrameworkDataTypes.propertyListLoop Url_tryParseExact registry).
Local Abbreviation propertyListBody :=
  (FrameworkDataTypes.propertyListBody Url_tryParseExact registry).

(** *** The loop on a prefix of the array *)

Lemma propertyListBody_index propertyName elems elems' container i keys failures :
  index elems i = index elems' i →
  propertyListBody propertyName elems container i keys failures =
  propertyListBody propertyName elems' container i keys failures.
Proof.
  intros Hsame. unfold FrameworkDataTypes.propertyListBody. by rewrite Hsame.
Qed.

Lemma propertyListLoop_app propertyName good extra container k failures :
  (k ≤ length good)%nat →
  propertyListLoop propertyName (good ++ extra) container k failures =
  propertyListLoop propertyName good container k failures.
Proof.
  induction k as [|k IH]; intros Hk; [done|].
  rewrite !propertyListLoop_S. unfold bind. rewrite IH by lia. clear IH.
  destruct (propertyListLoop propertyName good container k failures)
    as [[keys|e] ?]; [|done].
  apply propertyListBody_index. unfold index.
  by rewrite lookup_app_l by lia.
Qed.

Lemma propertyListLoop_thrown propertyName elems container failures k m e failures' :
  propertyListLoop propertyName elems container k failures = (Throw e, failures') →
  (k ≤ m)%nat →
  propertyListLoop propertyName elems container m failures = (Throw e, failures').
Proof.
  intros Hthrown. induction 1 as [|m Hle IH]; [done|].
  rewrite propertyListLoop_S. by erewrite bind_Throw_run.
Qed.

Lemma propertyListLoop_returns propertyName elems container failures k :
  registry_all validator_returns registry →
  Forall (λ v, Is_empty v = false) elems →
  (k ≤ length elems)%nat →
  ∃ keys failures',
    propertyListLoop propertyName elems container k failures = (Ok keys, failures').
Proof.
  intros Hreturns Helems. induction k as [|k IH]; intros Hk.
  - by exists [], failures.
  - destruct IH as (keys & failures' & Hloop); [lia|].
    destruct (lookup_lt_is_Some_2 elems k) as [v Hv]; [lia|].
    assert (index elems k = v) as Hindex by (unfold index; by rewrite Hv).
    rewrite propertyListLoop_S. erewrite bind_Ok by exact Hloop.
    rewrite propertyListBody_run
      by (rewrite Hindex; exact (Forall_lookup_1 _ _ _ _ Helems Hv)).
    set (sink_ := failures' ++ _).
    pose proof (validateIProperty_result Url_tryParseExact registry
                  (elementName propertyName k) (index elems k) sink_ container
                  Hreturns) as Hresult.
    destruct (FrameworkDataTypes.validateIProperty _ _ _ _ _ _) as [[b|e] failures''];
      [by eexists _, _ | discriminate].
Qed.

Lemma validateIPropertyList_sink propertyName r elems failures container :
  (validateIPropertyList propertyName (VArray r elems) failures container).2 =
  (propertyListLoop propertyName elems container (length elems) failures).2.
Proof.
  rewrite validateIPropertyList_array.
  by destruct (FrameworkDataTypes.propertyListLoop _ _ _ _ _ _ _) as [[keys|e] ?].
Qed.

Lemma validateIPropertyList_throw_run
    propertyName r r' good bad rest failures container :
  registry_all validator_returns registry →
  Forall (λ v, Is_empty v = false) good →
  Is_empty bad = true →
  validateIPropertyList propertyName (VArray r (good ++ bad :: rest))
    failures container =
  (Throw TypeError,
   (validateIPropertyList propertyName (VArray r' good) failures container).2).
Proof.
  intros Hreturns Hgood Hbad.
  destruct (propertyListLoop_returns propertyName good container failures
              (length good) Hreturns Hgood) as (keys & failures' & Hloop); [lia|].
  rewrite validateIPropertyList_sink, Hloop. cbn [snd].
  rewrite validateIPropertyList_array.
  erewrite (propertyListLoop_thrown _ _ _ _ (S (length good))); [done | |].
  - rewrite propertyListLoop_S.
    erewrite bind_Ok by (rewrite propertyListLoop_app by lia; exact Hloop).
    apply propertyListBody_throws. unfold index.
    by rewrite list_lookup_middle.
  - rewrite length_app. cbn. lia.
Qed.

(** *** Lists of well-formed properties *)

Lemma wellFormed_not_empty v :
  wellFormed Url_tryParseExact v = true → Is_empty v = false.
Proof. by destruct v. Qed.

Lemma wellFormed_key v :
  wellFormed Url_tryParseExact v = true → ∃ s, keyOf v = VString s.
Proof.
  destruct v; try done. cbn. unfold keyOf. cbn.
  destruct (field fields "key"); try done. by eexists.
Qed.

Lemma propertyListLoop_wellFormed propertyName elems container failures k :
  no_validators registry →
  Forall (λ v, wellFormed Url_tryParseExact v = true) elems →
  (k ≤ length elems)%nat →
  propertyListLoop propertyName elems container k failures =
  (Ok (keyOf <$> take k elems),
   failures ++ concat (imap (duplicateFailure propertyName elems) (take k elems))).
Proof.
  intros Hnone Helems. induction k as [|k IH]; intros Hk.
  - cbn. by rewrite take_0, app_nil_r.
  - destruct (lookup_lt_is_Some_2 elems k) as [v Hv]; [lia|].
    assert (index elems k = v) as Hindex by (unfold index; by rewrite Hv).
    pose proof (Forall_lookup_1 _ _ _ _ Helems Hv) as Hwell. cbn in Hwell.
    rewrite propertyListLoop_S. erewrite bind_Ok by (apply IH; lia).
    rewrite propertyListBody_run
      by (rewrite Hindex; by apply wellFormed_not_empty).
    rewrite Hindex, validateIProperty_wellFormed by done.
    rewrite (take_S_r _ _ _ Hv), fmap_app, imap_app, concat_app.
    rewrite length_take, Nat.min_l by lia. cbn.
    rewrite Nat.add_0_r, app_nil_r, <- app_assoc. reflexivity.
Qed.

Lemma concat_imap_nil {A B} (f : nat → A → list B) (l : list A) :
  concat (imap f l) = [] ↔ ∀ i x, l !! i = Some x → f i x = [].
Proof.
  revert f. induction l as [|a l IH]; intros f.
  - split; [intros _ i x Hi; by rewrite lookup_nil in Hi | done].
  - cbn. rewrite app_nil, IH. split.
    + intros [Ha Hl] [|i] x; cbn; [by intros [= <-] | apply Hl].
    + intros H. split; [by apply (H 0) | intros i x Hi; by apply (H (S i))].
Qed.

(** *** Registries with the same validators *)

Lemma propertyListLoop_ext (registry' : Registry)
    propertyName elems container n failures :
  (∀ name, optionalValidate (registry !! name) = optionalValidate (registry' !! name)) →
  propertyListLoop propertyName elems container n failures =
  FrameworkDataTypes.propertyListLoop Url_tryParseExact registry'
    propertyName elems container n failures.
Proof.
  intros Hsame. induction n as [|n IH]; [done|].
  rewrite !propertyListLoop_S. unfold bind. rewrite IH. clear IH.
  destruct (FrameworkDataTypes.propertyListLoop Url_tryParseExact registry'
              propertyName elems container n failures) as [[keys|e] failures'];
    [|done].
  destruct (Is_empty (index elems n)) eqn:Hv.
  - by rewrite !propertyListBody_throws.
  - rewrite !propertyListBody_run by done.
    by rewrite (validateIProperty_ext _ registry registry').
Qed.

Lemma validateIPropertyList_ext (registry' : Registry)
    propertyName v failures container :
  (∀ name, optionalValidate (registry !! name) = optionalValidate (registry' !! name)) →
  validateIPropertyList propertyName v failures container =
  FrameworkDataTypes.validateIPropertyList Url_tryParseExact registry'
    propertyName v failures container.
Proof.
  intros Hsame. destruct v; try done.
  rewrite !validateIPropertyList_array.
  by rewrite (propertyListLoop_ext registry').
Qed.

(** *** The properties *)

(** X7: only the validators of the registered handlers matter: two
    registries whose handlers have the same validator under every name
    (whatever their other members are, and whether a handler without a
    validator is registered or not) validate every value alike. *)
Theorem validators_same_validators
    (registry' : Registry) propertyName v failures container :
  (∀ name, optionalValidate (registry !! name) = optionalValidate (registry' !! name)) →
  validateIProperty propertyName v failures container =
    FrameworkDataTypes.validateIProperty Url_tryParseExact registry'
      propertyName v failures container ∧
  validateIPropertyList propertyName v failures container =
    FrameworkDataTypes.validateIPropertyList Url_tryParseExact registry'
      propertyName v failures container.
Proof.
  intros Hsame. split;
    [by apply validateIProperty_ext | by apply validateIPropertyList_ext].
Qed.


(** X8: when the registered validators only push, both validators only
    append: the failures array a call leaves starts with the array it was
    given, for every value. *)
Theorem validators_only_append propertyName v failures container :
  registry_all validator_pushes registry →
  failures `prefix_of` (validateIProperty propertyName v failures container).2 ∧
  failures `prefix_of` (validateIPropertyList propertyName v failures container).2.
Proof.
  intros Hpushes. split.
  - destruct (validateIProperty_pushes Url_tryParseExact registry
                propertyName v failures container Hpushes) as [pushed ->].
    by apply prefix_app_r.
  - destruct v; try (by cbn).
    rewrite validateIPropertyList_sink.
    destruct (propertyListLoop_segments Url_tryParseExact registry
                propertyName elems container failures (length elems) Hpushes)
      as (segments & _ & ->); [|done]. by apply prefix_app_r.
Qed.

(** X9: when the registered validators return, a [null] or [undefined]
    element after a run of other elements makes the list validator throw
    a [TypeError], and the failures array is left as validating that run
    alone leaves it: the elements before the offending one have been
    validated, those after it have not. *)
Theorem validateIPropertyList_throws_after_prefix
    propertyName r r' good bad rest failures container :
  registry_all validator_returns registry →
  Forall (λ v, Is_empty v = false) good →
  Is_empty bad = true →
  validateIPropertyList propertyName (VArray r (good ++ bad :: rest))
    failures container =
  (Throw TypeError,
   (validateIPropertyList propertyName (VArray r' good) failures container).2).
Proof. apply validateIPropertyList_throw_run. Qed.

(** X10: when the registered validators return, the list validator
    applied to an array throws a [TypeError] if some element is [null] or
    [undefined] and returns [true] otherwise; it never returns [false] for
    an array. *)
Theorem validateIPropertyList_array_result propertyName r elems failures container :
  registry_all validator_returns registry →
  (validateIPropertyList propertyName (VArray r elems) failures container).1 =
  if existsb Is_empty elems then Throw TypeError else Ok true.
Proof.
  intros Hreturns. destruct (existsb Is_empty elems) eqn:Hexists.
  - apply first_empty_split in Hexists
      as (good & bad & rest & -> & Hgood & Hbad).
    by rewrite (validateIPropertyList_throw_run _ r r good bad rest).
  - apply existsb_empty_false in Hexists.
    rewrite validateIPropertyList_array.
    destruct (propertyListLoop_returns propertyName elems container failures
                (length elems) Hreturns Hexists) as (keys & failures' & ->);
      [lia | done].
Qed.

(** X11: when the registered validators only push, validating a longer
    list leaves the failures of the shorter list as a prefix: elements
    added at the end of a list add failures at the end only. *)
Theorem validateIPropertyList_extension
    propertyName r r' elems more failures container :
  registry_all validator_pushes registry →
  (validateIPropertyList propertyName (VArray r elems) failures container).2
  `prefix_of`
  (validateIPropertyList propertyName (VArray r' (elems ++ more))
     failures container).2.
Proof.
  intros Hpushes. rewrite !validateIPropertyList_sink.
  destruct (propertyListLoop_segments Url_tryParseExact registry
              propertyName (elems ++ more) container failures
              (length (elems ++ more)) Hpushes)
    as (segments & Hlength & Hsegments).
  rewrite <- (propertyListLoop_app propertyName elems more) by lia.
  rewrite !Hsegments by (rewrite ?length_app; lia).
  rewrite (take_ge segments (length (elems ++ more))) by lia.
  rewrite <- (take_drop (length elems) segments) at 2.
  rewrite concat_app, app_assoc. by apply prefix_app_r.
Qed.

(** X12: when no registered handler has a validator, a list of well-formed
    properties validates to [true] and the failures pushed are exactly the
    duplicate-key failures, one for each element whose key occurred
    before, in index order. *)
Theorem validateIPropertyList_wellFormed propertyName r elems failures container :
  no_validators registry →
  Forall (λ v, wellFormed Url_tryParseExact v = true) elems →
  validateIPropertyList propertyName (VArray r elems) failures container =
  (Ok true, failures ++ duplicateFailures propertyName elems).
Proof.
  intros Hnone Helems.
  rewrite validateIPropertyList_array, propertyListLoop_wellFormed by done.
  by rewrite take_ge by lia.
Qed.

(** X13: when no registered handler has a validator, a list of well-formed
    properties passes untouched (result [true], nothing pushed) exactly
    when its keys are pairwise different. *)
Theorem validateIPropertyList_clean_iff_distinct_keys
    propertyName r elems failures container :
  no_validators registry →
  Forall (λ v, wellFormed Url_tryParseExact v = true) elems →
  validateIPropertyList propertyName (VArray r elems) failures container =
    (Ok true, failures) ↔
  NoDup (keyOf <$> elems).
Proof.
  intros Hnone Helems.
  rewrite validateIPropertyList_array, propertyListLoop_wellFormed by done.
  rewrite take_ge by lia.
  transitivity (concat (imap (duplicateFailure propertyName elems) elems) = []).
  { split.
    - intros [= Hsink]. apply (app_inv_head failures). by rewrite app_nil_r.
    - intros ->. by rewrite app_nil_r. }
  rewrite concat_imap_nil, NoDup_lookup_take. split.
  - intros Hclean i key Hkey.
    rewrite list_lookup_fmap in Hkey.
    destruct (elems !! i) as [v|] eqn:Hv; [|done]. injection Hkey as <-.
    rewrite <- fmap_take.
    destruct (wellFormed_key v (Forall_lookup_1 _ _ _ _ Helems Hv)) as [s Hs].
    rewrite Hs. intros Hin%includes_string.
    specialize (Hclean i v Hv). unfold duplicateFailure in Hclean.
    by rewrite Hs, Hin in Hclean.
  - intros Hdistinct i v Hv. unfold duplicateFailure.
    destruct (includes _ _) eqn:Hincludes; [|done]. exfalso.
    destruct (wellFormed_key v (Forall_lookup_1 _ _ _ _ Helems Hv)) as [s Hs].
    rewrite Hs in Hincludes. apply includes_string in Hincludes.
    apply (Hdistinct i (keyOf v)).
    + by rewrite list_lookup_fmap, Hv.
    + by rewrite <- fmap_take, Hs.
Qed.

End Validators.

(** *** The properties at concrete inputs *)

Lemma no_validators_empty :
  ∀ name handler, (∅ : Registry) !! name = Some handler → validate handler = None.
Proof. intros name handler Hname. by rewrite lookup_empty in Hname. Qed.

(** A registry with the validators of the example registry under other
    handlers. *)
Lemma validators_same_validators_witness :
  let registry' : Registry :=
    <[ Examples.TYPE_NEVER :=
         {| type := "renamed"; defaultValue := Some VNull;
            validate := Some Examples.alwaysFails |} ]> ∅ in
  let elems := VArray 1 [IProperty 2 "k" Examples.TYPE_NEVER (VNumber 1);
                         IProperty 3 "k" Examples.TYPE_PLAIN VNull] in
  Examples.validateIPropertyList "p" elems [] VUndefined =
  validateIPropertyList Examples.Url_tryParseExact registry' "p" elems [] VUndefined.
Proof.
  intros registry' elems.
  apply (validators_same_validators
           Examples.Url_tryParseExact Examples.registry registry').
  intros name. unfold Examples.registry, registry'.
  rewrite !lookup_insert. repeat case_decide; try done.
Defined.

Lemma validators_only_append_witness :
  let start := [ {| property := "q"; reason := "earlier" |} ] in
  registry_all validator_pushes Examples.registry ∧
  start `prefix_of`
    (Examples.validateIPropertyList "p"
       (VArray 1 [IProperty 2 "k" Examples.TYPE_NEVER (VNumber 1)])
       start VUndefined).2.
Proof.
  intros start.
  split; [apply registry_all_example, alwaysFails_pushes|].
  apply (validators_only_append Examples.Url_tryParseExact Examples.registry).
  apply registry_all_example, alwaysFails_pushes.
Defined.

(** The first element is validated, the [null] throws, the third element
    is never looked at. *)
Lemma validateIPropertyList_throws_after_prefix_witness :
  Examples.validateIPropertyList "p"
    (VArray 1 [IProperty 2 "k" Examples.TYPE_NEVER (VNumber 1); VNull;
               IProperty 3 "k" Examples.TYPE_NEVER (VNumber 2)])
    [] VUndefined =
  (Throw TypeError, [ {| property := "p[0]"; reason := "validation.never" |} ]).
Proof.
  apply (validateIPropertyList_throws_after_prefix
           Examples.Url_tryParseExact Examples.registry "p" 1%positive 1%positive
           [IProperty 2 "k" Examples.TYPE_NEVER (VNumber 1)] VNull
           [IProperty 3 "k" Examples.TYPE_NEVER (VNumber 2)] [] VUndefined).
  - apply registry_all_example, alwaysFails_returns.
  - repeat constructor.
  - reflexivity.
Defined.

Lemma validateIPropertyList_array_result_witness :
  (Examples.validateIPropertyList "p"
     (VArray 1 [VNumber 5; VUndefined]) [] VUndefined).1 = Throw TypeError ∧
  (Examples.validateIPropertyList "p"
     (VArray 1 [VNumber 5; VString ""]) [] VUndefined).1 = Ok true.
Proof.
  split;
    apply (validateIPropertyList_array_result
             Examples.Url_tryParseExact Examples.registry);
    apply registry_all_example, alwaysFails_returns.
Defined.

Lemma validateIPropertyList_extension_witness :
  (Examples.validateIPropertyList "p"
     (VArray 1 [IProperty 2 "k" Examples.TYPE_NEVER (VNumber 1)])
     [] VUndefined).2
  `prefix_of`
  (Examples.validateIPropertyList "p"
     (VArray 1 [IProperty 2 "k" Examples.TYPE_NEVER (VNumber 1);
                IProperty 3 "k" Examples.TYPE_UNKNOWN (VNumber 2)])
     [] VUndefined).2.
Proof.
  apply (validateIPropertyList_extension
           Examples.Url_tryParseExact Examples.registry "p" 1%positive 1%positive
           [IProperty 2 "k" Examples.TYPE_NEVER (VNumber 1)]
           [IProperty 3 "k" Examples.TYPE_UNKNOWN (VNumber 2)] [] VUndefined).
  apply registry_all_example, alwaysFails_pushes.
Defined.

(** Three well-formed properties, the second and third repeating keys. *)
Lemma validateIPropertyList_wellFormed_witness :
  validateIPropertyList Examples.Url_tryParseExact ∅ "p"
    (VArray 1 [IProperty 2 "a" Examples.TYPE_UNKNOWN (VNumber 1);
               IProperty 3 "a" Examples.TYPE_UNKNOWN (VNumber 2);
               IProperty 4 "b" Examples.TYPE_UNKNOWN (VNumber 3);
               IProperty 5 "a" Examples.TYPE_UNKNOWN (VNumber 4)])
    [] VUndefined =
  (Ok true,
   [ {| property := "p[1].key";
        reason := "validation.properties.keyAlreadyExists" |};
     {| property := "p[3].key";
        reason := "validation.properties.keyAlreadyExists" |} ]).
Proof.
  apply (validateIPropertyList_wellFormed Examples.Url_tryParseExact ∅ "p" 1%positive
           [IProperty 2 "a" Examples.TYPE_UNKNOWN (VNumber 1);
            IProperty 3 "a" Examples.TYPE_UNKNOWN (VNumber 2);
            IProperty 4 "b" Examples.TYPE_UNKNOWN (VNumber 3);
            IProperty 5 "a" Examples.TYPE_UNKNOWN (VNumber 4)] [] VUndefined).
  - apply no_validators_empty.
  - repeat constructor.
Defined.

Lemma validateIPropertyList_clean_iff_distinct_keys_witness :
  validateIPropertyList Examples.Url_tryParseExact ∅ "p"
    (VArray 1 [IProperty 2 "a" Examples.TYPE_UNKNOWN (VNumber 1);
               IProperty 3 "b" Examples.TYPE_UNKNOWN (VNumber 1)])
    [] VUndefined = (Ok true, []).
Proof.
  apply (validateIPropertyList_clean_iff_distinct_keys
           Examples.Url_tryParseExact ∅ "p" 1%positive
           [IProperty 2 "a" Examples.TYPE_UNKNOWN (VNumber 1);
            IProperty 3 "b" Examples.TYPE_UNKNOWN (VNumber 1)] [] VUndefined).
  - apply no_validators_empty.
  - repeat constructor.
  - change (NoDup [VString "a"; VString "b"]). apply NoDup_cons.
    split; [intros Hin%list_elem_of_singleton; discriminate | apply NoDup_singleton].
Defined.

End ValidateIPropertyListMore.

(* ===================================================================== *)
(** ** Properties of the registrations *)
(* ===================================================================== *)

Module RegistrationFacts.

Import FrameworkDataTypes FrameworkDataTypesFacts Registration.
Import ValidateIPropertyMore ValidateIPropertyListMore.

Local Abbreviation no_validators registry :=
  (∀ name handler, registry !! name = Some handler → validate handler = None).

(** The names [FrameworkDataTypes.registerTypes] registers. *)
Local Abbreviation frameworkTypes :=
  [TYPE_URN; TYPE_TIMESTAMP_MILLISECONDS; TYPE_TIMESTAMP_SECONDS;
   TYPE_PROPERTY_LIST; TYPE_PROPERTY].

Local Ltac lookup_registered :=
  unfold registerTypes, DataTypeHandlerFactory_register; cbv zeta;
  repeat (rewrite lookup_insert_ne by done);
  rewrite ?lookup_insert_eq.

Section FrameworkTypes.

Variable Url_tryParseExact : string → bool.
Variable Urn_validate : string → value → sink → Res bool * sink.
Variable Validation_timestampMilliseconds : string → value → sink → Res bool * sink.
Variable Validation_timestampSeconds : string → value → sink → Res bool * sink.
Variable Date_now : float.
Variable Math_floor : float → float.
Variable handlers : Registry.

Local Abbreviation registerTypes :=
  (Registration.registerTypes Url_tryParseExact Urn_validate
     Validation_timestampMilliseconds Validation_timestampSeconds
     Date_now Math_floor handlers).

Lemma memberFailures_IProperty propertyName key t v :
  key ≠ "" →
  Url_tryParseExact t = true → t ≠ "" →
  Is_empty v = false →
  memberFailures Url_tryParseExact propertyName
    [("key", VString key); ("type", VString t); ("value", v)] = [].
Proof.
  intros Hkey Hurl Ht Hv. unfold memberFailures. cbn [field String.eqb Ascii.eqb Bool.eqb].
  change (field _ "key") with (VString key).
  change (field _ "type") with (VString t).
  change (field _ "value") with v.
  unfold validType, Is_stringValue, Is_notEmpty.
  apply String.eqb_neq in Hkey, Ht. by rewrite Hkey, Ht, Hurl, Hv.
Qed.

(** X14: after [registerTypes] each of the five framework type names is
    bound to a handler that carries this name as its [type] and has a
    validator, whatever was registered under the name before; every other
    name is bound as it was. *)
Theorem registerTypes_registers registry name :
  (name ∈ frameworkTypes →
     ∃ handler, registerTypes registry !! name = Some handler ∧
                type handler = name ∧ is_Some (validate handler)) ∧
  (name ∉ frameworkTypes → registerTypes registry !! name = registry !! name).
Proof.
  split.
  - intros Hin. repeat (apply elem_of_cons in Hin as [->|Hin]);
      [..|by apply elem_of_nil in Hin];
      eexists; (split; [lookup_registered; reflexivity|]); by split.
  - intros Hout. unfold Registration.registerTypes, DataTypeHandlerFactory_register.
    cbv zeta.
    repeat (rewrite lookup_insert_ne;
            [|intros <-; apply Hout; repeat constructor]).
    done.
Qed.

(** X15: a later call of [registerTypes] overwrites an earlier one
    completely: the registry is the one the later call alone makes, with
    its clock reading and its validators. Calling it twice in a row
    changes nothing but the default values read from the clock. *)
Theorem registerTypes_overwrites
    Url_tryParseExact' Urn_validate' Validation_timestampMilliseconds'
    Validation_timestampSeconds' Date_now' Math_floor' handlers' registry :
  Registration.registerTypes Url_tryParseExact' Urn_validate'
    Validation_timestampMilliseconds' Validation_timestampSeconds'
    Date_now' Math_floor' handlers' (registerTypes registry) =
  Registration.registerTypes Url_tryParseExact' Urn_validate'
    Validation_timestampMilliseconds' Validation_timestampSeconds'
    Date_now' Math_floor' handlers' registry.
Proof.
  apply map_eq. intros name.
  unfold Registration.registerTypes, DataTypeHandlerFactory_register. cbv zeta.
  rewrite !lookup_insert. by repeat case_decide.
Qed.

(** X16: a property of one of the three scalar framework types is handed
    to the core library's validator of that type, under the unchanged
    property name and without the container; the property validates to
    [true] whatever that validator returns. *)
Theorem scalar_types_delegate registry propertyName r key v failures container :
  Url_tryParseExact TYPE_URN = true →
  Url_tryParseExact TYPE_TIMESTAMP_MILLISECONDS = true →
  Url_tryParseExact TYPE_TIMESTAMP_SECONDS = true →
  let run (validator : string → value → sink → Res bool * sink) t :=
    validateIProperty Url_tryParseExact (registerTypes registry)
      propertyName (IProperty r key t v) failures container =
    match validator propertyName v
            (failures ++ memberFailures Url_tryParseExact propertyName
                           [("key", VString key); ("type", VString t); ("value", v)])
    with
    | (Ok _, failures') => (Ok true, failures')
    | (Throw e, failures') => (Throw e, failures')
    end in
  run Urn_validate TYPE_URN ∧
  run Validation_timestampMilliseconds TYPE_TIMESTAMP_MILLISECONDS ∧
  run Validation_timestampSeconds TYPE_TIMESTAMP_SECONDS.
Proof.
  intros Hurn Hms Hs run. unfold run, IProperty. split_and!.
  - by erewrite validateIProperty_resolved;
      [| reflexivity | exact Hurn | lookup_registered; reflexivity | reflexivity].
  - by erewrite validateIProperty_resolved;
      [| reflexivity | exact Hms | lookup_registered; reflexivity | reflexivity].
  - by erewrite validateIProperty_resolved;
      [| reflexivity | exact Hs | lookup_registered; reflexivity | reflexivity].
Qed.

(** X17: a property of type [TYPE_PROPERTY_LIST] or [TYPE_PROPERTY] is
    handed to [validateIPropertyList] or [validateIProperty] under the
    unchanged property name, so the failures of the nested value carry the
    paths of the property itself ([propertyName[i].key], [propertyName.key]),
    and the result of the nested call is dropped. *)
Theorem structured_types_delegate registry propertyName r key v failures container :
  Url_tryParseExact TYPE_PROPERTY_LIST = true →
  Url_tryParseExact TYPE_PROPERTY = true →
  let run (validator : Validator) t :=
    validateIProperty Url_tryParseExact (registerTypes registry)
      propertyName (IProperty r key t v) failures container =
    match validator propertyName v
            (failures ++ memberFailures Url_tryParseExact propertyName
                           [("key", VString key); ("type", VString t); ("value", v)])
            container
    with
    | (Ok _, failures') => (Ok true, failures')
    | (Throw e, failures') => (Throw e, failures')
    end in
  run (validateIPropertyList Url_tryParseExact handlers) TYPE_PROPERTY_LIST ∧
  run (validateIProperty Url_tryParseExact handlers) TYPE_PROPERTY.
Proof.
  intros Hlist Hproperty run. unfold run, IProperty. split.
  - by erewrite validateIProperty_resolved;
      [| reflexivity | exact Hlist | lookup_registered; reflexivity | reflexivity].
  - by erewrite validateIProperty_resolved;
      [| reflexivity | exact Hproperty | lookup_registered; reflexivity | reflexivity].
Qed.

(** X18: a property of type [TYPE_PROPERTY_LIST] whose value is present but
    is no array (a number, a string, an object) validates to [true] and
    pushes nothing: the list validator answers [false] without a failure
    and [validateIProperty] drops that answer. *)
Theorem property_list_type_accepts_non_array
    registry propertyName r key v failures container :
  Url_tryParseExact TYPE_PROPERTY_LIST = true →
  key ≠ "" →
  Is_empty v = false →
  Is_array v = false →
  validateIProperty Url_tryParseExact (registerTypes registry)
    propertyName (IProperty r key TYPE_PROPERTY_LIST v) failures container =
  (Ok true, failures).
Proof.
  intros Hlist Hkey Hempty Harray. unfold IProperty.
  erewrite validateIProperty_resolved;
    [| reflexivity | exact Hlist | lookup_registered; reflexivity | reflexivity].
  change (field _ "value") with v.
  rewrite memberFailures_IProperty, app_nil_r by done.
  unfold validateIPropertyList. by rewrite Hempty, Harray.
Qed.

End FrameworkTypes.

Lemma scalar_types_delegate_witness :
  validateIProperty Examples.Url_tryParseExact RegistrationExamples.frameworkRegistry
    "p" (IProperty 1 "k" TYPE_TIMESTAMP_SECONDS (VString "soon")) [] VUndefined =
  (Ok true, [ {| property := "p"; reason := "validation.rejected" |} ]).
Proof.
  exact (proj2 (proj2 (scalar_types_delegate
           Examples.Url_tryParseExact RegistrationExamples.accepts
           RegistrationExamples.rejects RegistrationExamples.rejects
           0%float (fun x => x) Examples.registry ∅
           "p" 1%positive "k" (VString "soon") [] VUndefined
           eq_refl eq_refl eq_refl))).
Defined.

(** The duplicate key of the nested list is reported at [p[1].key]. *)
Lemma structured_types_delegate_witness :
  validateIProperty Examples.Url_tryParseExact RegistrationExamples.frameworkRegistry
    "p"
    (IProperty 1 "k" TYPE_PROPERTY_LIST
       (VArray 2 [IProperty 3 "a" Examples.TYPE_UNKNOWN (VNumber 1);
                  IProperty 4 "a" Examples.TYPE_UNKNOWN (VNumber 2)]))
    [] VUndefined =
  (Ok true,
   [ {| property := "p[1].key";
        reason := "validation.properties.keyAlreadyExists" |} ]).
Proof.
  exact (proj1 (structured_types_delegate
           Examples.Url_tryParseExact RegistrationExamples.accepts
           RegistrationExamples.rejects RegistrationExamples.rejects
           0%float (fun x => x) Examples.registry ∅
           "p" 1%positive "k"
           (VArray 2 [IProperty 3 "a" Examples.TYPE_UNKNOWN (VNumber 1);
                      IProperty 4 "a" Examples.TYPE_UNKNOWN (VNumber 2)])
           [] VUndefined eq_refl eq_refl)).
Defined.

Lemma property_list_type_accepts_non_array_witness :
  validateIProperty Examples.Url_tryParseExact RegistrationExamples.frameworkRegistry
    "p" (IProperty 1 "k" TYPE_PROPERTY_LIST (VNumber 5)) [] VUndefined =
  (Ok true, []).
Proof.
  apply (property_list_type_accepts_non_array
           Examples.Url_tryParseExact RegistrationExamples.accepts
           RegistrationExamples.rejects RegistrationExamples.rejects
           0%float (fun x => x) Examples.registry ∅
           "p" 1%positive "k" (VNumber 5) [] VUndefined);
    [reflexivity | discriminate | reflexivity | reflexivity].
Defined.

(** *** JsonLdDataTypes.registerTypes *)

Lemma append_inj_r (s a b : string) : s +:+ a = s +:+ b → a = b.
Proof. induction s as [|c s IH]; cbn; [done|]. intros [= H]. by apply IH. Qed.

Section JsonLdTypes.

Import JsonLdDataTypes.

Variable ContextRoot : string.
Variable JsonLdTypes : JsonLdTypeName → string.

Local Abbreviation key t := (ContextRoot +:+ JsonLdTypes t).
Local Abbreviation registerType := (JsonLdDataTypes.registerType ContextRoot JsonLdTypes).
Local Abbreviation registerTypes := (JsonLdDataTypes.registerTypes ContextRoot JsonLdTypes).

Lemma registered_everywhere t : t ∈ registrations.
Proof. unfold registrations. destruct t; repeat constructor. Qed.

Lemma foldl_registerType_lookup ts (registry : Registry) t :
  t ∈ ts →
  foldl registerType registry ts !! key t = Some (handler JsonLdTypes t).
Proof.
  induction ts as [|t' ts IH] using rev_ind; [by intros ?%elem_of_nil|].
  intros Hin. rewrite foldl_app. cbn.
  unfold JsonLdDataTypes.registerType at 1, DataTypeHandlerFactory_register.
  rewrite lookup_insert. case_decide as Hkey.
  - apply append_inj_r in Hkey. unfold handler. by rewrite Hkey.
  - apply IH. apply elem_of_app in Hin as [Hin | ->%list_elem_of_singleton]; done.
Qed.

Lemma foldl_registerType_other ts (registry : Registry) name :
  (∀ t, name ≠ key t) →
  foldl registerType registry ts !! name = registry !! name.
Proof.
  intros Hother. induction ts as [|t' ts IH] using rev_ind; [done|].
  rewrite foldl_app. cbn.
  unfold JsonLdDataTypes.registerType at 1, DataTypeHandlerFactory_register.
  rewrite lookup_insert_ne by (intros Heq; by apply (Hother t')). done.
Qed.

Lemma foldl_registerType_no_validators ts (registry : Registry) :
  no_validators registry → no_validators (foldl registerType registry ts).
Proof.
  intros Hnone. induction ts as [|t' ts IH] using rev_ind; [done|].
  rewrite foldl_app. cbn. intros name handler_.
  unfold JsonLdDataTypes.registerType at 1, DataTypeHandlerFactory_register.
  rewrite lookup_insert. case_decide; [by intros [= <-] | apply IH].
Qed.

(** X19: after [JsonLdDataTypes.registerTypes] every member of
    [JsonLdTypes] it names is bound, under the context root followed by
    the member's string, to a handler whose [type] is the bare string and
    which has no validator; every name that is not of this form is bound
    as it was. *)
Theorem jsonLd_registerTypes_registers (registry : Registry) :
  (∀ t, registerTypes registry !! key t =
        Some {| type := JsonLdTypes t; defaultValue := None; validate := None |}) ∧
  (∀ name, (∀ t, name ≠ key t) →
           registerTypes registry !! name = registry !! name).
Proof.
  split.
  - intros t. apply foldl_registerType_lookup, registered_everywhere.
  - intros name. apply foldl_registerType_other.
Qed.

(** X20: the second registration of [ListObject] is without effect: the
    registry is the one the calls make with that call left out. *)
Theorem jsonLd_registerTypes_duplicate (registry : Registry) :
  registerTypes registry =
  foldl registerType registry
    [ Document; Object; NodeObject; NodePrimitive; GraphObject; ValueObject;
      ListObject; SetObject; LanguageMap; IndexMap; IndexMapItem;
      IdMap; TypeMap; IncludedBlock; ContextDefinition; ExpandedTermDefinition;
      Keyword; ListOrSetItem; ContainerType; ContainerTypeArray;
      JsonPrimitive; JsonArray; JsonObject; JsonValue ].
Proof.
  unfold JsonLdDataTypes.registerTypes, registrations. cbn [foldl].
  unfold JsonLdDataTypes.registerType, DataTypeHandlerFactory_register.
  by rewrite insert_insert_eq.
Qed.

(** X21: the JSON-LD handlers have no validators, so registering them on a
    factory without validators leaves both validators as they are on an
    empty factory: a property of a JSON-LD type is checked for its shape
    only. *)
Theorem jsonLd_types_not_validated Url_tryParseExact (registry : Registry)
    propertyName v failures container :
  no_validators registry →
  validateIProperty Url_tryParseExact (registerTypes registry)
    propertyName v failures container =
    validateIProperty Url_tryParseExact ∅ propertyName v failures container ∧
  validateIPropertyList Url_tryParseExact (registerTypes registry)
    propertyName v failures container =
    validateIPropertyList Url_tryParseExact ∅ propertyName v failures container.
Proof.
  intros Hnone.
  assert (∀ name,
            optionalValidate (registerTypes registry !! name) =
            optionalValidate ((∅ : Registry) !! name)) as Hsame.
  { intros name. rewrite lookup_empty.
    destruct (registerTypes registry !! name) as [handler_|] eqn:Hname; [|done].
    cbn. eapply foldl_registerType_no_validators; [exact Hnone | exact Hname]. }
  split; [by apply validateIProperty_ext | by apply validateIPropertyList_ext].
Qed.

End JsonLdTypes.

Lemma jsonLd_types_not_validated_witness :
  validateIProperty Examples.Url_tryParseExact RegistrationExamples.jsonLdRegistry
    "p"
    (IProperty 1 "k" "https://schema.example/json-ld/JsonLdDocument" (VNumber 1))
    [] VUndefined = (Ok true, []).
Proof.
  exact (proj1 (jsonLd_types_not_validated
                  RegistrationExamples.ContextRoot RegistrationExamples.JsonLdTypes
                  Examples.Url_tryParseExact ∅ "p"
                  (IProperty 1 "k" "https://schema.example/json-ld/JsonLdDocument"
                     (VNumber 1))
                  [] VUndefined no_validators_empty)).
Defined.

End RegistrationFacts.
